(** * Workout planner: a shallow embedding of [workout_planner_tool.py]

    The planner is one Python function, [create_workout_plan].  It checks
    three of its arguments, builds a pool of exercise names out of two
    constant dictionaries, draws five names per day with [random.sample]
    and appends lines to a string.

    Python values are modelled as follows.
    - [str] is [string] (a sequence of 8-bit characters); [+] on strings is
      [+:+]; [str.lower] lowers the letters A..Z; [a in b] on strings is a
      substring search.
    - [int] is [Z]; an f-string field holding an int prints it in decimal
      (the interpreter's cap on the number of digits is left out).
    - [Optional[int]] is [option Z]; [if duration:] is Python truthiness.
    - a [dict] with string keys is a [gmap string _]; [d[k]] on a missing
      key raises [KeyError].
    - The state of the module [random] is threaded explicitly; an exception
      is an outcome of its own, so "does not raise" is a statement that can
      fail. *)

From Stdlib Require Import ZArith String Ascii DecimalString DecimalZ.
From stdpp Require Import base option list gmap strings.

Local Open Scope Z_scope.

(** ** Python primitives *)

Module Py.

Inductive exn : Set := KeyError | IndexError | ValueError.

Inductive outcome (A : Type) : Type :=
| Return (a : A)
| Raise (e : exn).
Arguments Return {A} a.
Arguments Raise {A} e.

(** The generator behind [random]: an unbounded supply of raw draws and
    the number of draws already consumed. *)
Record random_state : Type := RandomState {
  stream : nat -> nat;
  cursor : nat
}.

Definition advance (g : random_state) : random_state :=
  {| stream := stream g; cursor := S (cursor g) |}.

(** Computations that read the generator and may raise. *)
Definition M (A : Type) : Type := random_state -> outcome A * random_state.

Definition ret {A} (a : A) : M A := fun g => (Return a, g).

Definition raise {A} (e : exn) : M A := fun g => (Raise e, g).

Definition bind {A B} (m : M A) (k : A -> M B) : M B :=
  fun g =>
    match m g with
    | (Return a, g') => k a g'
    | (Raise e, g') => (Raise e, g')
    end.

Definition lift {A} (e : exn) (o : option A) : M A :=
  match o with
  | Some a => ret a
  | None => raise e
  end.

(** [random._randbelow(n)], defined for [n > 0]: some number below [n],
    here the next raw draw reduced modulo [n].  Every number below [n] is
    the result for some generator. *)
Definition randbelow (n : nat) : M nat :=
  fun g =>
    (Return (match n with O => O | S _ => (stream g (cursor g) mod n)%nat end),
     advance g).

(** [for x in xs: s = body(x, s)] *)
Fixpoint for_each {A S : Type} (xs : list A) (body : A -> S -> M S) (s : S)
  : M S :=
  match xs with
  | [] => ret s
  | x :: xs' => bind (body x s) (for_each xs' body)
  end.

(** [range(a, b)] *)
Definition range (a b : Z) : list Z :=
  (fun i : nat => a + Z.of_nat i) <$> seq 0 (Z.to_nat (b - a)).

(** [d[k]] on a dictionary. *)
Definition getitem {V} (d : gmap string V) (k : string) : M V :=
  lift KeyError (d !! k).

(** [k in d] on a dictionary. *)
Definition dict_contains {V} (k : string) (d : gmap string V) : bool :=
  bool_decide (is_Some (d !! k)).

(** [x in l] on a list of strings. *)
Definition list_contains (x : string) (l : list string) : bool :=
  bool_decide (x ∈ l).

(** The one-character string holding a line feed. *)
Definition nl : string := String (ascii_of_nat 10) EmptyString.

(** [str(z)], also what an f-string field does to an int. *)
Definition str (z : Z) : string := NilZero.string_of_int (Z.to_int z).

Definition lower_ascii (c : ascii) : ascii :=
  let n := nat_of_ascii c in
  if ((65 <=? n) && (n <=? 90))%nat then ascii_of_nat (n + 32) else c.

(** [s.lower()] *)
Fixpoint lower (s : string) : string :=
  match s with
  | EmptyString => EmptyString
  | String c t => String (lower_ascii c) (lower t)
  end.

(** [needle in hay] on strings: is [needle] a prefix of some suffix of
    [hay]. *)
Fixpoint str_in (needle hay : string) : bool :=
  String.prefix needle hay
  || match hay with
     | EmptyString => false
     | String _ t => str_in needle t
     end.

(** An f-string field holding an [Optional[int]]. *)
Definition str_optional (o : option Z) : string :=
  match o with
  | None => "None"
  | Some d => str d
  end.

(** Truthiness of an [Optional[int]]: [None] and [0] are false. *)
Definition truthy (o : option Z) : bool :=
  match o with
  | None => false
  | Some d => negb (d =? 0)
  end.

(** [random.sample] compares the population size with [setsize] to pick
    one of its two algorithms: 21 for [k <= 5], and 21 plus 4 to the
    power [ceil(log(3k, 4))] above (3k is never a power of 4, so the
    ceiling is one more than the floor). *)
Definition setsize (k : nat) : nat :=
  if (k <=? 5)%nat then 21%nat
  else (21 + 4 ^ (S (Nat.log2 (3 * k) / 2)))%nat.

(** [random.sample(population, k)] as CPython runs it on a population of
    at most [setsize k] entries: the population is copied, and [k] times
    an entry of the part not yet selected is taken and its place is filled
    with the last entry of that part.  [result] is filled from the left,
    so it is modelled by appending. *)
Definition sample_step {A} (n : nat) (i : nat) (st : list A * list A)
  : M (list A * list A) :=
  let '(pool, result) := st in
  bind (randbelow (n - i)) (fun j =>
  bind (lift IndexError (pool !! j)) (fun x =>
  bind (lift IndexError (pool !! (n - i - 1)%nat)) (fun y =>
  ret (<[j := y]> pool, result ++ [x])))).

Definition sample {A} (population : list A) (k : nat) : M (list A) :=
  let n := length population in
  if negb (k <=? n)%nat then raise ValueError
  else
    bind (for_each (seq 0 k) (sample_step n) (population, []))
         (fun st => ret (snd st)).

End Py.

Import Py.

Declare Scope py_scope.
Delimit Scope py_scope with py.
Notation "x <- m ;; k" := (bind m (fun x => k))
  (at level 100, m at next level, right associativity) : py_scope.
Local Open Scope py_scope.

(** ** The program *)

(** The dictionary literal [exercises]: fitness level, then equipment. *)
Definition exercises : gmap string (gmap string (list string)) :=
  list_to_map [
    ("beginner", list_to_map [
      ("full gym", ["Leg press"; "Chest press machine"; "Treadmill"; "Seated cable rows"; "Machine shoulder press"]);
      ("basic dumbbells", ["Dumbbell squats"; "Dumbbell bench press"; "Dumbbell rows"; "Dumbbell lunges"; "Dumbbell curls"]);
      ("no equipment", ["Bodyweight squats"; "Push-ups"; "Walking lunges"; "Plank"; "Mountain climbers"])
    ]);
    ("intermediate", list_to_map [
      ("full gym", ["Barbell squats"; "Bench press"; "Lat pulldowns"; "Romanian deadlifts"; "Cable face pulls"]);
      ("basic dumbbells", ["Dumbbell lunges"; "Dumbbell overhead press"; "Dumbbell deadlifts"; "Dumbbell flyes"; "Dumbbell renegade rows"]);
      ("no equipment", ["Jump squats"; "Diamond push-ups"; "Burpees"; "Superman holds"; "Mountain climbers"])
    ]);
    ("advanced", list_to_map [
      ("full gym", ["Deadlifts"; "Weighted pull-ups"; "Barbell rows"; "Front squats"; "Overhead press"]);
      ("basic dumbbells", ["Dumbbell clean and press"; "Renegade rows"; "Bulgarian split squats"; "Single-leg Romanian deadlifts"; "Dumbbell thrusters"]);
      ("no equipment", ["Pistol squats"; "One-arm push-ups"; "Muscle-ups"; "Plyometric lunges"; "L-sit holds"])
    ])
  ].

(** The dictionary literal [body_weight_exercises]. *)
Definition body_weight_exercises : gmap string (list string) :=
  list_to_map [
    ("beginner", ["Bodyweight squats"; "Push-ups"; "Lunges"; "Plank"; "Mountain climbers"; "Bird dogs"; "Glute bridges"]);
    ("intermediate", ["Jump squats"; "Diamond push-ups"; "Burpees"; "Spider-man push-ups"; "V-ups"; "Box jumps"; "Flutter kicks"]);
    ("advanced", ["Pistol squats"; "One-arm push-ups"; "Plyometric lunges"; "Handstand push-ups"; "L-sit holds"; "Muscle-ups"; "Planche progressions"])
  ].

(** The three messages returned in place of a plan. *)
Definition InvalidFitnessLevel : string :=
  "Invalid fitness level. Please choose beginner, intermediate, or advanced.".
Definition InvalidDayCount : string :=
  "Invalid number of days. Please choose between 1 and 7.".
Definition InvalidEquipment : string :=
  "Invalid equipment option. Please choose full gym, basic dumbbells, or no equipment.".

(** [exercises[level][equipment]] *)
Definition cell (level equipment : string) : M (list string) :=
  row <- getitem exercises level ;;
  getitem row equipment.

(** Lines 110-123: the value given to [exercise_pool]. *)
Definition exercise_pool (fitness_level equipment : string)
  (body_weight_only : bool) : M (list string) :=
  if body_weight_only then
    if String.eqb fitness_level "beginner" then
      getitem body_weight_exercises "beginner"
    else if String.eqb fitness_level "intermediate" then
      b <- getitem body_weight_exercises "beginner" ;;
      i <- getitem body_weight_exercises "intermediate" ;;
      ret (b ++ i)
    else
      b <- getitem body_weight_exercises "beginner" ;;
      i <- getitem body_weight_exercises "intermediate" ;;
      a <- getitem body_weight_exercises "advanced" ;;
      ret (b ++ i ++ a)
  else
    if String.eqb fitness_level "beginner" then
      cell "beginner" equipment
    else if String.eqb fitness_level "intermediate" then
      b <- cell "beginner" equipment ;;
      i <- cell "intermediate" equipment ;;
      ret (b ++ i)
    else
      b <- cell "beginner" equipment ;;
      i <- cell "intermediate" equipment ;;
      a <- cell "advanced" equipment ;;
      ret (b ++ i ++ a).

(** Line 129: the value given to [reps]. *)
Definition reps (goal : string) : string :=
  if str_in "weight" (lower goal) || str_in "muscle" (lower goal)
  then "10-15 reps" else "30-60 seconds".

(** Line 127: the value given to [daily_exercises]. *)
Definition daily_exercises (pool : list string) : M (list string) :=
  sample pool (Nat.min 5 (length pool)).

(** Lines 126-131: the body of the loop over the days; [workout_plan] goes
    in and comes out. *)
Definition day_body (goal : string) (pool : list string) (day : Z)
  (workout_plan : string) : M string :=
  let workout_plan := workout_plan +:+ "Day " +:+ str day +:+ ":" +:+ nl in
  daily <- daily_exercises pool ;;
  let workout_plan :=
    fold_left
      (fun workout_plan exercise =>
         workout_plan +:+ "- " +:+ exercise +:+ ": 3 sets of " +:+ reps goal +:+ nl)
      daily workout_plan in
  ret (workout_plan +:+ "- Cool-down: 5-10 minutes of light stretching" +:+ nl +:+ nl).

Definition create_workout_plan (fitness_level goal : string)
  (days_per_week : Z) (equipment : string) (body_weight_only : bool)
  (duration : option Z) : M string :=
  if negb (dict_contains fitness_level exercises) then
    ret InvalidFitnessLevel
  else if (days_per_week <? 1) || (days_per_week >? 7) then
    ret InvalidDayCount
  else if negb (list_contains equipment ["full gym"; "basic dumbbells"; "no equipment"]) then
    ret InvalidEquipment
  else
    let workout_plan :=
      "Workout Plan (" +:+ fitness_level +:+ " level, " +:+ goal +:+ " focus, "
      +:+ str days_per_week +:+ " days/week, " in
    let workout_plan :=
      workout_plan +:+ (if body_weight_only then "body weight only" else equipment)
      +:+ "):" +:+ nl +:+ nl in
    pool <- exercise_pool fitness_level equipment body_weight_only ;;
    workout_plan <-
      for_each (range 1 (days_per_week + 1)) (day_body goal pool) workout_plan ;;
    let workout_plan :=
      if truthy duration then
        workout_plan +:+ "Aim to complete each workout session in about "
        +:+ str_optional duration +:+ " minutes." +:+ nl
      else workout_plan in
    ret workout_plan.


(** ** Vocabulary of the statements *)

(** [sel] holds the entries of [pool] at [k] pairwise distinct positions:
    what a draw without replacement gives. *)
Definition drawn_from {A} (pool : list A) (k : nat) (sel : list A) : Prop :=
  exists idxs : list nat,
    NoDup idxs /\ length idxs = k
    /\ Forall2 (fun i x => pool !! i = Some x) idxs sel.

(** The inputs that pass the three checks. *)
Definition tiers : list string := ["beginner"; "intermediate"; "advanced"].
Definition equipments : list string :=
  ["full gym"; "basic dumbbells"; "no equipment"].

Definition valid_request (fitness_level : string) (days_per_week : Z)
  (equipment : string) : Prop :=
  fitness_level ∈ tiers /\ 1 <= days_per_week <= 7 /\ equipment ∈ equipments.

(** [word] occurs in [goal] when case is ignored: some stretch of [goal]
    spells [word] once lowered. *)
Definition mentions (word goal : string) : Prop :=
  exists pre mid post, goal = pre +:+ mid +:+ post /\ lower mid = word.

(** A text made of lines, each closed by a line feed. *)
Fixpoint unlines (ls : list string) : string :=
  match ls with
  | [] => ""
  | l :: ls' => l +:+ nl +:+ unlines ls'
  end.

(** [s.split("\n")]: the stretches of [s] between line feeds. *)
Fixpoint split_lines (s : string) : list string :=
  match s with
  | EmptyString => [""]
  | String c t =>
      if Ascii.eqb c (ascii_of_nat 10) then "" :: split_lines t
      else match split_lines t with
           | [] => [String c ""]
           | l :: ls => String c l :: ls
           end
  end.

(** [s] holds no line feed, so it is one line. *)
Fixpoint one_line (s : string) : bool :=
  match s with
  | EmptyString => true
  | String c t => negb (Ascii.eqb c (ascii_of_nat 10)) && one_line t
  end.

(** The lines of a rendered plan. *)
Definition header_line (fitness_level goal : string) (days_per_week : Z)
  (equipment : string) (body_weight_only : bool) : string :=
  "Workout Plan (" +:+ fitness_level +:+ " level, " +:+ goal +:+ " focus, "
  +:+ str days_per_week +:+ " days/week, "
  +:+ (if body_weight_only then "body weight only" else equipment) +:+ "):".

Definition day_heading (day : Z) : string := "Day " +:+ str day +:+ ":".

Definition exercise_line (annotation exercise : string) : string :=
  "- " +:+ exercise +:+ ": " +:+ annotation.

Definition cool_down_line : string :=
  "- Cool-down: 5-10 minutes of light stretching".

Definition advisory_line (minutes : Z) : string :=
  "Aim to complete each workout session in about " +:+ str minutes
  +:+ " minutes.".

(** One day of a plan: its number and the exercises listed under it. *)
Record day_section : Type := DaySection {
  day_number : Z;
  day_exercises : list string
}.

(** A day section is a heading, one line per exercise, the cool-down line
    and an empty line. *)
Definition section_lines (annotation : string) (s : day_section)
  : list string :=
  day_heading (day_number s)
  :: (exercise_line annotation <$> day_exercises s)
  ++ [cool_down_line; ""].

(** The sections for the days [first], [first + 1], ... *)
Fixpoint number_days (first : Z) (sels : list (list string))
  : list day_section :=
  match sels with
  | [] => []
  | sel :: sels' => DaySection first sel :: number_days (first + 1) sels'
  end.

(** A plan: the header line, an empty line, the day sections, the lines
    that follow them. *)
Definition plan_text (header annotation : string) (days : list day_section)
  (trailer : list string) : string :=
  header +:+ nl +:+ nl
  +:+ unlines (concat (section_lines annotation <$> days) ++ trailer).

(** The annotation put after every exercise of a plan for [goal]. *)
Definition annotation (goal : string) : string := "3 sets of " +:+ reps goal.

(** The lines after the last day: the advisory line, when the program
    prints one. *)
Definition trailer (duration : option Z) : list string :=
  match duration with
  | None => []
  | Some d => if d =? 0 then [] else [advisory_line d]
  end.

(** [int(s)] on a decimal numeral. *)
Definition int_of_str (s : string) : option Z :=
  Z.of_int <$> NilZero.int_of_string s.

(** A returned string is a plan when it opens as the header does. *)
Definition is_plan (out : string) : bool := String.prefix "Workout Plan (" out.

(** A line is a day heading when it opens as the headings do. *)
Definition is_heading (line : string) : bool := String.prefix "Day " line.

(** The day headings among some lines, in their order. *)
Definition headings (lines : list string) : list string :=
  filter (fun l => is_heading l = true) lines.


(** The fitness tiers in their order. *)
Inductive tier : Set := Beginner | Intermediate | Advanced.

Definition tier_name (t : tier) : string :=
  match t with
  | Beginner => "beginner"
  | Intermediate => "intermediate"
  | Advanced => "advanced"
  end.

Definition tier_rank (t : tier) : nat :=
  match t with
  | Beginner => 0
  | Intermediate => 1
  | Advanced => 2
  end.

Definition tier_of (fitness_level : string) : option tier :=
  if String.eqb fitness_level "beginner" then Some Beginner
  else if String.eqb fitness_level "intermediate" then Some Intermediate
  else if String.eqb fitness_level "advanced" then Some Advanced
  else None.

(** The tiers from beginner up to and including [t], in tier order. *)
Definition tiers_upto (t : tier) : list tier :=
  filter (fun t' => (tier_rank t' <= tier_rank t)%nat)
         [Beginner; Intermediate; Advanced].

(** The catalog entries of one tier: the body-weight list of the tier, or
    the tier's list for the given equipment. *)
Definition catalog_cell (body_weight_only : bool) (equipment : string)
  (t : tier) : option (list string) :=
  if body_weight_only then body_weight_exercises !! tier_name t
  else exercises !! tier_name t ≫= fun row => row !! equipment.

(** The pool as the specification words it: the entries of all tiers up
    to the requested one, one tier after the other, nothing removed. *)
Definition cumulative_pool (body_weight_only : bool) (equipment : string)
  (t : tier) : option (list string) :=
  cells ← mapM (catalog_cell body_weight_only equipment) (tiers_upto t);
  Some (concat cells).

(** A generator whose raw draws are all 4. *)
Definition fours : random_state := {| stream := fun _ => 4%nat; cursor := 0 |}.

(** The selections the loop over the days makes: line 127 run once per
    day, the generator handed from one day to the next. *)
Fixpoint day_draws (pool : list string) (n : nat) (g : random_state)
  : list (list string) :=
  match n with
  | O => []
  | S n' =>
      match daily_exercises pool g with
      | (Return sel, g') => sel :: day_draws pool n' g'
      | (Raise _, _) => []
      end
  end.

(** How often a name stands in a list of names. *)
Definition occurrences (name : string) (names : list string) : nat :=
  count_occ string_dec names name.

(** ** The delegation path: [workout_planner_llm_based_tool.py]

    [create_llm_workout_plan] fills a prompt template with its arguments
    and hands the result to a language model behind a network service.
    The service, and the rendering of the one filled message by the chat
    template class, are not part of the repository: they are taken as
    parameters. *)

(** [str(b)], what a format field does to a bool. *)
Definition str_bool (b : bool) : string := if b then "True" else "False".

(** Truthiness of an [Optional[str]]: [None] and the empty string are
    false. *)
Definition truthy_str (o : option string) : bool :=
  match o with
  | None => false
  | Some s => negb (String.eqb s "")
  end.

(** [duration or "unspecified"], as the format field prints it. *)
Definition duration_or_unspecified (duration : option Z) : string :=
  if truthy duration then str_optional duration else "unspecified".

(** [additional_info or "None provided"], as the format field prints it. *)
Definition additional_info_or_none (additional_info : option string)
  : string :=
  match additional_info with
  | Some s => if truthy_str additional_info then s else "None provided"
  | None => "None provided"
  end.

(** The template of lines 90-111 with its seven fields filled in: a line
    feed, the lines below, and the four blanks before the closing
    quotes. *)
Definition filled_template (fitness_level goal : string) (days_per_week : Z)
  (equipment : string) (body_weight_only : bool) (duration : option Z)
  (additional_info : option string) : string :=
  nl +:+ unlines [
    "    You are an expert personal trainer. Create a detailed workout plan based on the following information:";
    "";
    "    Fitness Level: " +:+ fitness_level;
    "    Goal: " +:+ goal;
    "    Days per Week: " +:+ str days_per_week;
    "    Equipment: " +:+ equipment;
    "    Body Weight Only: " +:+ str_bool body_weight_only;
    "    Duration per Session: " +:+ duration_or_unspecified duration +:+ " minutes";
    "    Additional Information: " +:+ additional_info_or_none additional_info;
    "";
    "    Please create a workout plan that includes:";
    "    1. A brief introduction explaining the plan's focus and how it aligns with the user's goals.";
    "    2. A day-by-day breakdown of exercises, including sets, reps, and rest periods.";
    "    3. Proper form cues for key exercises.";
    "    4. Progression suggestions for the coming weeks.";
    "    5. Tips for warm-up and cool-down routines.";
    "    6. Any dietary advice that complements the workout plan.";
    "";
    "    Ensure the plan is appropriately challenging for the specified fitness level and uses available equipment effectively.";
    "    If body weight only is specified, focus exclusively on calisthenics and bodyweight exercises."
  ] +:+ "    ".

Section delegation.

(** The state of the remote service and what calling it can raise. *)
Variable service : Type.
Variable failure : Type.

(** [ChatPromptTemplate.format] on the text of its one message. *)
Variable chat_format : string -> string.

(** [llm.invoke(prompt).content] for the client built on line 87. *)
Variable invoke : string -> service -> (failure + string) * service.

Definition create_llm_workout_plan (fitness_level goal : string)
  (days_per_week : Z) (equipment : string) (body_weight_only : bool)
  (duration : option Z) (additional_info : option string)
  : service -> (failure + string) * service :=
  let formatted_prompt :=
    chat_format
      (filled_template fitness_level goal days_per_week equipment
         body_weight_only duration additional_info) in
  invoke formatted_prompt.

End delegation.

(** ** Facts about the primitives *)

Section sample_facts.
Context {A : Type}.
Implicit Types (pool result population : list A) (g : random_state).

Lemma randbelow_lt n g :
  (0 < n)%nat ->
  exists j, randbelow n g = (Return j, advance g) /\ (j < n)%nat.
Proof.
  intros Hn. unfold randbelow. destruct n as [|n]; [lia|].
  eexists; split; [reflexivity|]. apply Nat.mod_upper_bound. lia.
Qed.

Lemma randbelow_any (n j : nat) :
  (j < n)%nat ->
  exists g, randbelow n g = (Return j, advance g).
Proof.
  intros Hj. exists {| stream := fun _ => j; cursor := 0 |}.
  unfold randbelow. destruct n as [|n]; [lia|].
  cbn [stream cursor]. rewrite Nat.mod_small by lia. reflexivity.
Qed.

Lemma for_each_cons_return {I S} (x : I) xs (body : I -> S -> M S) s s' g g' :
  body x s g = (Return s', g') ->
  for_each (x :: xs) body s g = for_each xs body s' g'.
Proof. intros H. simpl. unfold bind. rewrite H. reflexivity. Qed.

Lemma sample_step_run (n i : nat) pool result g (j : nat) x y :
  randbelow (n - i) g = (Return j, advance g) ->
  pool !! j = Some x ->
  pool !! (n - i - 1)%nat = Some y ->
  sample_step n i (pool, result) g
    = (Return (<[j := y]> pool, result ++ [x]), advance g).
Proof.
  intros Hj Hx Hy. unfold sample_step, bind. rewrite Hj, Hx. simpl.
  rewrite Hy. reflexivity.
Qed.

(** Swapping the chosen entry with the last one of the live part and
    cutting the live part by one keeps the same entries overall. *)
Lemma live_part_step pool (m j : nat) x y :
  (j <= m)%nat ->
  pool !! j = Some x ->
  pool !! m = Some y ->
  take m (<[j := y]> pool) ++ [x] ≡ₚ take (S m) pool.
Proof.
  intros Hj Hx Hy.
  rewrite (take_S_r pool m y Hy).
  destruct (decide (j = m)) as [->|Hne].
  - rewrite take_insert_ge by lia.
    assert (x = y) as -> by congruence. reflexivity.
  - assert (Hjm : (j < m)%nat) by lia.
    rewrite take_insert_lt by lia.
    assert (Hx' : take m pool !! j = Some x)
      by (rewrite lookup_take_lt by lia; exact Hx).
    rewrite insert_take_drop
      by (rewrite length_take; apply lookup_lt_Some in Hx; lia).
    rewrite <- (take_drop_middle (take m pool) j x Hx') at 3.
    rewrite <- !app_assoc. simpl.
    apply Permutation_app_head.
    rewrite (Permutation_app_comm (drop (S j) (take m pool)) [x]). simpl.
    rewrite Permutation_swap. do 1 constructor.
    rewrite (Permutation_app_comm _ [y]). reflexivity.
Qed.

Lemma sample_loop population (n : nat) :
  length population = n ->
  forall (k i : nat) pool result g,
    (i + k <= n)%nat ->
    length pool = n ->
    take (n - i) pool ++ result ≡ₚ population ->
    exists pool' result',
      for_each (seq i k) (sample_step n) (pool, result) g
        = (Return (pool', result'),
           {| stream := stream g; cursor := (cursor g + k)%nat |})
      /\ length pool' = n
      /\ take (n - (i + k)) pool' ++ result' ≡ₚ population
      /\ length result' = (length result + k)%nat.
Proof.
  intros Hn k. induction k as [|k IH]; intros i pool result g Hik Hlen Hperm.
  - exists pool, result. simpl. unfold ret.
    rewrite !Nat.add_0_r. destruct g; auto.
  - destruct (randbelow_lt (n - i) g) as (j & Hj & Hlt); [lia|].
    destruct (lookup_lt_is_Some_2 pool j) as [x Hx]; [lia|].
    destruct (lookup_lt_is_Some_2 pool (n - i - 1)) as [y Hy]; [lia|].
    simpl seq.
    rewrite (for_each_cons_return _ _ _ _ _ _ _
               (sample_step_run n i pool result g j x y Hj Hx Hy)).
    destruct (IH (S i) (<[j := y]> pool) (result ++ [x]) (advance g))
      as (pool' & result' & Hrun & Hlen' & Hperm' & Hres).
    + lia.
    + rewrite length_insert. exact Hlen.
    + rewrite <- Hperm.
      rewrite (Permutation_app_comm result [x]), app_assoc.
      apply Permutation_app_tail.
      replace (n - i)%nat with (S (n - S i)) by lia.
      apply live_part_step; [lia|exact Hx|].
      replace (n - S i)%nat with (n - i - 1)%nat by lia. exact Hy.
    + exists pool', result'. rewrite Hrun. simpl.
      replace (cursor g + S k)%nat with (S (cursor g + k)) by lia.
      replace (i + S k)%nat with (S i + k)%nat by lia.
      rewrite length_app in Hres. simpl in Hres.
      repeat split; auto. lia.
Qed.

(** A sample of size [k <= n] is returned, not raised; it has [k] entries,
    it is part of a rearrangement of the population, and it costs [k]
    draws. *)
Lemma sample_returns population (k : nat) g :
  (k <= length population)%nat ->
  exists sel rest,
    sample population k g
      = (Return sel, {| stream := stream g; cursor := (cursor g + k)%nat |})
    /\ length sel = k
    /\ sel ++ rest ≡ₚ population.
Proof.
  intros Hk. unfold sample.
  destruct (Nat.leb_spec k (length population)) as [_|]; [|lia]. simpl.
  destruct (sample_loop population (length population) eq_refl k 0
              population [] g) as (pool' & sel & Hrun & _ & Hperm & Hlen).
  - lia.
  - reflexivity.
  - rewrite Nat.sub_0_r, firstn_all, app_nil_r. reflexivity.
  - exists sel, (take (length population - (0 + k)) pool').
    unfold bind. rewrite Hrun. simpl. unfold ret.
    repeat split; auto.
    rewrite Permutation_app_comm. exact Hperm.
Qed.

Lemma sample_raises population (k : nat) g :
  (length population < k)%nat ->
  sample population k g = (Raise ValueError, g).
Proof.
  intros Hk. unfold sample.
  destruct (Nat.leb_spec k (length population)); [lia|reflexivity].
Qed.

End sample_facts.

(** The sampling algorithm never looks at the entries: renaming them
    before or after the draw is the same. *)
Lemma sample_step_fmap {A B} (f : A -> B) (n i : nat) (pool result : list A) g :
  sample_step n i (f <$> pool, f <$> result) g
  = match sample_step n i (pool, result) g with
    | (Return st, g') => (Return (f <$> fst st, f <$> snd st), g')
    | (Raise e, g') => (Raise e, g')
    end.
Proof.
  unfold sample_step, bind.
  destruct (randbelow (n - i) g) as [[j|e] g1]; [|reflexivity].
  rewrite !list_lookup_fmap.
  destruct (pool !! j) as [x|]; simpl; [|reflexivity].
  destruct (pool !! (n - i - 1)%nat) as [y|]; simpl; [|reflexivity].
  rewrite list_fmap_insert, fmap_app. reflexivity.
Qed.

Lemma sample_loop_fmap {A B} (f : A -> B) (n k : nat) :
  forall (i : nat) (pool result : list A) g,
    for_each (seq i k) (sample_step n) (f <$> pool, f <$> result) g
    = match for_each (seq i k) (sample_step n) (pool, result) g with
      | (Return st, g') => (Return (f <$> fst st, f <$> snd st), g')
      | (Raise e, g') => (Raise e, g')
      end.
Proof.
  induction k as [|k IH]; intros i pool result g; [reflexivity|].
  simpl seq. cbn [for_each]. unfold bind. rewrite sample_step_fmap.
  destruct (sample_step n i (pool, result) g) as [[[pool1 result1]|e] g1];
    [apply IH|reflexivity].
Qed.

Lemma sample_fmap {A B} (f : A -> B) (population : list A) (k : nat) g :
  sample (f <$> population) k g
  = match sample population k g with
    | (Return sel, g') => (Return (f <$> sel), g')
    | (Raise e, g') => (Raise e, g')
    end.
Proof.
  unfold sample. rewrite length_fmap.
  destruct (negb (k <=? length population)%nat); [reflexivity|].
  unfold bind.
  rewrite (sample_loop_fmap f (length population) k 0 population []).
  destruct (for_each _ _ _ g) as [[[pool' sel]|e] g']; reflexivity.
Qed.

(** What [random.sample] returns is drawn without replacement: the entries
    at [k] pairwise distinct positions of the population. *)
Lemma sample_drawn_from {A} (population : list A) (k : nat) g sel g' :
  sample population k g = (Return sel, g') ->
  drawn_from population k sel.
Proof.
  intros Hrun.
  destruct (Nat.le_gt_cases k (length population)) as [Hk|Hk];
    [|rewrite sample_raises in Hrun by lia; discriminate].
  destruct population as [|d tl].
  { destruct (sample_returns (@nil A) k g Hk) as (sel' & rest & Hs & Hl & _).
    rewrite Hs in Hrun. injection Hrun as <- _.
    simpl in Hk. assert (k = 0%nat) as -> by lia.
    destruct sel'; [|discriminate]. exists []. repeat split; constructor. }
  set (population := d :: tl) in *.
  set (n := length population) in *.
  set (f := fun i : nat => default d (population !! i)).
  assert (Hpop : population = f <$> seq 0 n).
  { apply list_eq. intros i. rewrite list_lookup_fmap.
    destruct (decide (i < n)%nat) as [Hi|Hi].
    - rewrite lookup_seq_lt by lia. simpl. unfold f.
      destruct (lookup_lt_is_Some_2 population i Hi) as [x ->]. reflexivity.
    - rewrite lookup_seq_ge by lia. simpl. apply lookup_ge_None. lia. }
  destruct (sample_returns (seq 0 n) k g) as (idxs & rest & Hs & Hl & Hperm);
    [rewrite length_seq; lia|].
  rewrite Hpop, sample_fmap, Hs in Hrun. injection Hrun as <- _.
  assert (Hnd : NoDup (idxs ++ rest)) by (rewrite Hperm; apply NoDup_seq).
  exists idxs. split; [apply NoDup_app in Hnd; tauto|]. split; [exact Hl|].
  apply Forall2_fmap_r, Forall_Forall2_diag, Forall_forall.
  intros i Hi.
  assert (Hin : i ∈ seq 0 n) by (rewrite <- Hperm; set_solver).
  apply elem_of_seq in Hin.
  destruct (lookup_lt_is_Some_2 population i) as [x Hx]; [lia|].
  unfold compose, f. rewrite Hx. reflexivity.
Qed.

(** ** Strings *)

Lemma string_app_cons (x : ascii) (a b : string) :
  String x a +:+ b = String x (a +:+ b).
Proof. reflexivity. Qed.

Lemma string_app_nil_l (b : string) : "" +:+ b = b.
Proof. reflexivity. Qed.

Lemma string_app_assoc (a b c : string) : (a +:+ b) +:+ c = a +:+ b +:+ c.
Proof.
  induction a as [|x a IH]; [reflexivity|].
  rewrite !string_app_cons, IH. reflexivity.
Qed.

Lemma string_app_nil_r (a : string) : a +:+ "" = a.
Proof.
  induction a as [|x a IH]; [reflexivity|].
  rewrite string_app_cons, IH. reflexivity.
Qed.

Lemma prefix_spec (a s : string) :
  String.prefix a s = true <-> exists post, s = a +:+ post.
Proof.
  revert s. induction a as [|x a IH]; intros s.
  - destruct s; split; eauto.
  - destruct s as [|y s]; simpl String.prefix.
    + split; [discriminate|]. intros [post H]. discriminate.
    + destruct (ascii_dec x y) as [->|Hne].
      * rewrite IH. split; intros [post H]; exists post;
          rewrite string_app_cons in *; congruence.
      * split; [discriminate|]. intros [post H].
        rewrite string_app_cons in H. congruence.
Qed.

(** [str_in] is the substring relation. *)
Lemma str_in_spec (needle hay : string) :
  str_in needle hay = true <-> exists pre post, hay = pre +:+ needle +:+ post.
Proof.
  induction hay as [|c hay IH]; cbn [str_in].
  - rewrite orb_false_r, prefix_spec. split.
    + intros [post H]. exists "", post. exact H.
    + intros (pre & post & H). destruct pre; [eauto|discriminate].
  - rewrite orb_true_iff, prefix_spec, IH. split.
    + intros [[post H]|(pre & post & H)].
      * exists "", post. exact H.
      * exists (String c pre), post. rewrite string_app_cons. congruence.
    + intros (pre & post & H). destruct pre as [|x pre].
      * left. eauto.
      * right. exists pre, post. rewrite string_app_cons in H. congruence.
Qed.

Lemma lower_app (a b : string) : lower (a +:+ b) = lower a +:+ lower b.
Proof.
  induction a as [|x a IH]; [reflexivity|].
  rewrite string_app_cons. cbn [lower]. rewrite string_app_cons, IH.
  reflexivity.
Qed.

Lemma lower_app_inv (s a b : string) :
  lower s = a +:+ b ->
  exists s1 s2, s = s1 +:+ s2 /\ lower s1 = a /\ lower s2 = b.
Proof.
  revert s. induction a as [|x a IH]; intros s H.
  - exists "", s. auto.
  - rewrite string_app_cons in H.
    destruct s as [|c s]; [discriminate|]. cbn [lower] in H.
    injection H as Hc Hs. destruct (IH s Hs) as (s1 & s2 & -> & H1 & H2).
    exists (String c s1), s2. cbn [lower]. rewrite Hc, H1. auto.
Qed.

(** The test the program runs on the goal is a case-blind search. *)
Lemma str_in_lower (word goal : string) :
  str_in word (lower goal) = true <-> mentions word goal.
Proof.
  rewrite str_in_spec. unfold mentions. split.
  - intros (pre & post & H).
    apply lower_app_inv in H as (s1 & s23 & -> & H1 & H23).
    apply lower_app_inv in H23 as (s2 & s3 & -> & H2 & H3).
    exists s1, s2, s3. auto.
  - intros (pre & mid & post & -> & H).
    exists (lower pre), (lower post). rewrite !lower_app, H. reflexivity.
Qed.

Lemma one_line_app (a b : string) :
  one_line (a +:+ b) = one_line a && one_line b.
Proof.
  induction a as [|x a IH]; [reflexivity|].
  rewrite string_app_cons. cbn [one_line]. rewrite IH, andb_assoc.
  reflexivity.
Qed.

Lemma unlines_app (ls1 ls2 : list string) :
  unlines (ls1 ++ ls2) = unlines ls1 +:+ unlines ls2.
Proof.
  induction ls1 as [|l ls1 IH]; [reflexivity|].
  change (l +:+ nl +:+ unlines (ls1 ++ ls2)
          = (l +:+ nl +:+ unlines ls1) +:+ unlines ls2).
  rewrite IH, !string_app_assoc. reflexivity.
Qed.

Lemma uint_one_line (d : Decimal.uint) :
  one_line (NilEmpty.string_of_uint d) = true.
Proof. induction d; simpl; auto. Qed.

Lemma str_one_line (z : Z) : one_line (str z) = true.
Proof.
  unfold str, NilZero.string_of_int, NilZero.string_of_uint.
  destruct (Z.to_int z) as [d|d].
  - destruct d; try reflexivity; apply uint_one_line.
  - cbn [one_line]. rewrite andb_true_iff. split; [reflexivity|].
    destruct d; try reflexivity; apply uint_one_line.
Qed.

(** Printing an int and reading it back gives the int. *)
Lemma int_of_str_str (z : Z) : int_of_str (str z) = Some z.
Proof.
  unfold int_of_str, str.
  assert (Hnorm : Z.to_int z = Decimal.norm (Z.to_int z))
    by (rewrite <- DecimalZ.to_of, DecimalZ.of_to; reflexivity).
  rewrite NilZero.isi.
  - simpl. rewrite DecimalZ.of_to. reflexivity.
  - intros E. rewrite E in Hnorm. discriminate.
  - intros E. rewrite E in Hnorm. discriminate.
Qed.

Lemma split_lines_line (l rest : string) :
  one_line l = true ->
  split_lines (l +:+ nl +:+ rest) = l :: split_lines rest.
Proof.
  induction l as [|c l IH]; intros Hl; [reflexivity|].
  cbn [one_line] in Hl. apply andb_true_iff in Hl as [Hc Hl].
  rewrite string_app_cons. cbn [split_lines].
  apply negb_true_iff in Hc. rewrite Hc, (IH Hl). reflexivity.
Qed.

(** Cutting a text made of lines gives the lines back, and one empty
    string after the last line feed. *)
Lemma split_lines_unlines (ls : list string) :
  Forall (fun l => one_line l = true) ls ->
  split_lines (unlines ls) = ls ++ [""].
Proof.
  induction 1 as [|l ls Hl _ IH]; [reflexivity|].
  cbn [unlines]. rewrite (split_lines_line l _ Hl), IH. reflexivity.
Qed.

(** ** Draws without replacement *)

Lemma drawn_from_length {A} (pool : list A) (k : nat) (sel : list A) :
  drawn_from pool k sel -> length sel = k.
Proof.
  intros (idxs & _ & Hlen & Hall). apply Forall2_length in Hall. congruence.
Qed.

Lemma drawn_from_elem_of {A} (pool : list A) (k : nat) (sel : list A) x :
  drawn_from pool k sel -> x ∈ sel -> x ∈ pool.
Proof.
  intros (idxs & _ & _ & Hall) Hx.
  induction Hall as [|i y idxs sel Hi _ IH]; [inversion Hx|].
  apply elem_of_cons in Hx as [->|Hx]; [|exact (IH Hx)].
  apply list_elem_of_lookup. eauto.
Qed.


(** ** The checks *)

Lemma dict_contains_exercises (fitness_level : string) :
  dict_contains fitness_level exercises = bool_decide (fitness_level ∈ tiers).
Proof.
  unfold dict_contains, exercises, tiers. apply bool_decide_ext.
  cbn [list_to_map foldr fst snd curry uncurry].
  rewrite !elem_of_cons, elem_of_nil.
  destruct (decide (fitness_level = "beginner")) as [->|H1];
    [rewrite lookup_insert_eq; split; eauto|].
  rewrite lookup_insert_ne by congruence.
  destruct (decide (fitness_level = "intermediate")) as [->|H2];
    [rewrite lookup_insert_eq; split; eauto|].
  rewrite lookup_insert_ne by congruence.
  destruct (decide (fitness_level = "advanced")) as [->|H3];
    [rewrite lookup_insert_eq; split; eauto|].
  rewrite lookup_insert_ne by congruence. rewrite lookup_empty.
  split; [intros [? ?]; discriminate|tauto].
Qed.

Lemma list_contains_equipments (equipment : string) :
  list_contains equipment ["full gym"; "basic dumbbells"; "no equipment"]
  = bool_decide (equipment ∈ equipments).
Proof. reflexivity. Qed.

Lemma days_check (days_per_week : Z) :
  (days_per_week <? 1) || (days_per_week >? 7)
  = negb (bool_decide (1 <= days_per_week <= 7)).
Proof.
  destruct (bool_decide_reflect (1 <= days_per_week <= 7)) as [H|H]; simpl.
  - apply orb_false_iff. split; [apply Z.ltb_ge|rewrite Z.gtb_ltb; apply Z.ltb_ge]; lia.
  - apply orb_true_iff.
    destruct (Z.ltb_spec days_per_week 1); [auto|right].
    rewrite Z.gtb_ltb. apply Z.ltb_lt. lia.
Qed.

Lemma tiers_cases (fitness_level : string) :
  fitness_level ∈ tiers ->
  fitness_level = "beginner" \/ fitness_level = "intermediate"
  \/ fitness_level = "advanced".
Proof. unfold tiers. rewrite !elem_of_cons, elem_of_nil. tauto. Qed.

Lemma equipments_cases (equipment : string) :
  equipment ∈ equipments ->
  equipment = "full gym" \/ equipment = "basic dumbbells"
  \/ equipment = "no equipment".
Proof. unfold equipments. rewrite !elem_of_cons, elem_of_nil. tauto. Qed.

Ltac each_request Hf He :=
  apply tiers_cases in Hf as [-> | [-> | ->]];
  apply equipments_cases in He as [-> | [-> | ->]].

(** ** The pool *)

(** For a request that passes the checks every lookup succeeds, the pool
    does not depend on the generator, it has between 5 and 21 entries and
    each entry is one line. *)
Lemma exercise_pool_valid (fitness_level equipment : string) (bwo : bool) :
  fitness_level ∈ tiers -> equipment ∈ equipments ->
  exists pool,
    (forall g, exercise_pool fitness_level equipment bwo g = (Return pool, g))
    /\ (5 <= length pool <= 21)%nat
    /\ Forall (fun e => one_line e = true) pool.
Proof.
  intros Hf He. each_request Hf He; destruct bwo;
    (eexists; split; [intros g; vm_compute; reflexivity|];
     split; [vm_compute; split; repeat constructor
            |repeat constructor]).
Qed.

(** ** The loop over the days *)

Lemma range_nil (a : Z) : range a a = [].
Proof. unfold range. rewrite Z.sub_diag. reflexivity. Qed.

Lemma range_cons (a : Z) (n : nat) :
  range a (a + Z.of_nat (S n)) = a :: range (a + 1) (a + 1 + Z.of_nat n).
Proof.
  unfold range.
  replace (a + Z.of_nat (S n) - a) with (Z.of_nat (S n)) by lia.
  replace (a + 1 + Z.of_nat n - (a + 1)) with (Z.of_nat n) by lia.
  rewrite !Nat2Z.id. cbn [seq fmap list_fmap].
  f_equal; [lia|].
  rewrite <- fmap_S_seq, <- list_fmap_compose.
  apply list_fmap_ext. intros _ i _. simpl. lia.
Qed.

(** The inner loop appends one line per exercise. *)
Lemma exercise_loop (goal : string) (sel : list string) (workout_plan : string) :
  fold_left
    (fun workout_plan exercise =>
       workout_plan +:+ "- " +:+ exercise +:+ ": 3 sets of " +:+ reps goal +:+ nl)
    sel workout_plan
  = workout_plan +:+ unlines (exercise_line (annotation goal) <$> sel).
Proof.
  revert workout_plan. induction sel as [|e sel IH]; intros wp.
  - simpl. rewrite string_app_nil_r. reflexivity.
  - cbn [fold_left fmap list_fmap unlines]. rewrite IH.
    unfold exercise_line, annotation.
    rewrite !string_app_assoc. reflexivity.
Qed.

(** One turn of the outer loop draws once and appends one day section. *)
Lemma day_body_run (goal : string) (pool : list string) (day : Z)
  (workout_plan : string) g :
  exists sel,
    day_body goal pool day workout_plan g
    = (Return (workout_plan
               +:+ unlines (section_lines (annotation goal) (DaySection day sel))),
       {| stream := stream g;
          cursor := (cursor g + Nat.min 5 (length pool))%nat |})
    /\ drawn_from pool (Nat.min 5 (length pool)) sel.
Proof.
  destruct (sample_returns pool (Nat.min 5 (length pool)) g)
    as (sel & rest & Hrun & _ & _); [lia|].
  exists sel. split; [|exact (sample_drawn_from _ _ _ _ _ Hrun)].
  unfold day_body, daily_exercises, bind. rewrite Hrun. unfold ret.
  rewrite exercise_loop. unfold section_lines, day_heading.
  cbn [day_number day_exercises unlines]. rewrite unlines_app.
  cbn [unlines]. rewrite !string_app_assoc. reflexivity.
Qed.

Lemma days_loop (goal : string) (pool : list string) (n : nat) :
  forall (first : Z) (workout_plan : string) g,
  exists sels,
    for_each (range first (first + Z.of_nat n)) (day_body goal pool)
      workout_plan g
    = (Return (workout_plan
               +:+ unlines (concat (section_lines (annotation goal)
                                      <$> number_days first sels))),
       {| stream := stream g;
          cursor := (cursor g + n * Nat.min 5 (length pool))%nat |})
    /\ length sels = n
    /\ Forall (drawn_from pool (Nat.min 5 (length pool))) sels.
Proof.
  induction n as [|n IH]; intros first wp g.
  - exists []. rewrite Z.add_0_r, range_nil. simpl. unfold ret.
    rewrite string_app_nil_r, Nat.add_0_r. destruct g. auto.
  - rewrite range_cons.
    destruct (day_body_run goal pool first wp g) as (sel & Hday & Hsel).
    rewrite (for_each_cons_return _ _ _ _ _ _ _ Hday).
    edestruct (IH (first + 1)) as (sels & Hrun & Hlen & Hall).
    exists (sel :: sels). rewrite Hrun.
    split; [|split; [simpl; congruence|constructor; assumption]].
    cbn [number_days fmap list_fmap concat stream cursor].
    rewrite unlines_app, string_app_assoc. do 2 f_equal. lia.
Qed.

(** ** The whole function *)

Lemma trailer_text (duration : option Z) (workout_plan : string) :
  (if truthy duration then
     workout_plan +:+ "Aim to complete each workout session in about "
     +:+ str_optional duration +:+ " minutes." +:+ nl
   else workout_plan)
  = workout_plan +:+ unlines (trailer duration).
Proof.
  destruct duration as [d|]; simpl; [|symmetry; apply string_app_nil_r].
  destruct (d =? 0); simpl; [symmetry; apply string_app_nil_r|].
  unfold advisory_line. rewrite !string_app_assoc. reflexivity.
Qed.

(** Past the three checks the function returns the header, one section per
    day and the trailer; each day's exercises are one draw from the
    pool. *)
Lemma create_workout_plan_valid (fitness_level goal : string)
  (days_per_week : Z) (equipment : string) (bwo : bool)
  (duration : option Z) g :
  valid_request fitness_level days_per_week equipment ->
  exists pool sels,
    exercise_pool fitness_level equipment bwo g = (Return pool, g)
    /\ create_workout_plan fitness_level goal days_per_week equipment bwo
         duration g
       = (Return (plan_text
                    (header_line fitness_level goal days_per_week equipment bwo)
                    (annotation goal) (number_days 1 sels) (trailer duration)),
          {| stream := stream g;
             cursor := (cursor g + Z.to_nat days_per_week
                                   * Nat.min 5 (length pool))%nat |})
    /\ length sels = Z.to_nat days_per_week
    /\ Forall (drawn_from pool (Nat.min 5 (length pool))) sels.
Proof.
  intros (Hf & Hd & He).
  destruct (exercise_pool_valid fitness_level equipment bwo Hf He)
    as (pool & Hpool & _).
  unfold create_workout_plan.
  rewrite dict_contains_exercises, days_check, list_contains_equipments.
  rewrite !bool_decide_eq_true_2 by assumption. cbn [negb]. cbv zeta.
  unfold bind. rewrite Hpool.
  replace (days_per_week + 1) with (1 + Z.of_nat (Z.to_nat days_per_week))
    by lia.
  match goal with
  | |- context [for_each _ _ ?wp _] =>
      destruct (days_loop goal pool (Z.to_nat days_per_week) 1 wp g)
        as (sels & Hrun & Hlen & Hall)
  end.
  exists pool, sels. split; [reflexivity|]. split; [|auto].
  rewrite Hrun. unfold ret. rewrite trailer_text.
  unfold plan_text, header_line.
  rewrite unlines_app, !string_app_assoc. reflexivity.
Qed.

(** The three ways out before a plan is built. *)
Lemma create_workout_plan_bad_level (fitness_level goal : string)
  (days_per_week : Z) (equipment : string) (bwo : bool)
  (duration : option Z) g :
  fitness_level ∉ tiers ->
  create_workout_plan fitness_level goal days_per_week equipment bwo duration g
  = (Return InvalidFitnessLevel, g).
Proof.
  intros Hf. unfold create_workout_plan.
  rewrite dict_contains_exercises, bool_decide_eq_false_2 by assumption.
  reflexivity.
Qed.


Lemma create_workout_plan_bad_equipment (fitness_level goal : string)
  (days_per_week : Z) (equipment : string) (bwo : bool)
  (duration : option Z) g :
  fitness_level ∈ tiers -> 1 <= days_per_week <= 7 ->
  equipment ∉ equipments ->
  create_workout_plan fitness_level goal days_per_week equipment bwo duration g
  = (Return InvalidEquipment, g).
Proof.
  intros Hf Hd He. unfold create_workout_plan.
  rewrite dict_contains_exercises, bool_decide_eq_true_2 by assumption.
  rewrite days_check, bool_decide_eq_true_2 by assumption.
  rewrite list_contains_equipments, bool_decide_eq_false_2 by assumption.
  reflexivity.
Qed.

(** ** Sections and lines *)

Lemma number_days_exercises (first : Z) (sels : list (list string)) :
  day_exercises <$> number_days first sels = sels.
Proof.
  revert first. induction sels as [|sel sels IH]; intros first; [reflexivity|].
  cbn [number_days fmap list_fmap day_exercises]. f_equal. apply IH.
Qed.

Lemma number_days_length (first : Z) (sels : list (list string)) :
  length (number_days first sels) = length sels.
Proof. rewrite <- (number_days_exercises first sels) at 2. rewrite length_fmap. reflexivity. Qed.

Lemma number_days_numbers (sels : list (list string)) :
  forall first : Z,
    day_number <$> number_days first sels
    = range first (first + Z.of_nat (length sels)).
Proof.
  induction sels as [|sel sels IH]; intros first.
  - simpl. rewrite Z.add_0_r, range_nil. reflexivity.
  - cbn [length]. rewrite range_cons.
    cbn [number_days fmap list_fmap day_number]. f_equal. apply IH.
Qed.

Lemma number_days_Forall (P : list string -> Prop) (sels : list (list string)) :
  Forall P sels ->
  forall first, Forall (fun s => P (day_exercises s)) (number_days first sels).
Proof.
  induction 1 as [|sel sels Hsel _ IH]; intros first; constructor; auto.
Qed.

Lemma annotation_cases (goal : string) :
  annotation goal = "3 sets of 10-15 reps"
  \/ annotation goal = "3 sets of 30-60 seconds".
Proof.
  unfold annotation, reps.
  destruct (str_in "weight" (lower goal) || str_in "muscle" (lower goal)); auto.
Qed.

Lemma section_lines_one_line (goal : string) (s : day_section) :
  Forall (fun e => one_line e = true) (day_exercises s) ->
  Forall (fun l => one_line l = true) (section_lines (annotation goal) s).
Proof.
  intros Hsel. unfold section_lines. constructor.
  - unfold day_heading. rewrite !one_line_app, str_one_line. reflexivity.
  - apply Forall_app. split; [|repeat constructor].
    apply Forall_fmap. eapply Forall_impl; [exact Hsel|].
    intros e He. simpl. unfold exercise_line.
    rewrite !one_line_app, He.
    destruct (annotation_cases goal) as [-> | ->]; reflexivity.
Qed.


Lemma trailer_one_line (duration : option Z) :
  Forall (fun l => one_line l = true) (trailer duration).
Proof.
  destruct duration as [d|]; simpl; [|constructor].
  destruct (d =? 0); repeat constructor.
  unfold advisory_line. rewrite !one_line_app, str_one_line. reflexivity.
Qed.

(** The lines a plan is made of hold no line feed when the exercises do
    not: they are the lines one gets by cutting the text at line feeds. *)
Lemma plan_lines_one_line (goal : string) (pool : list string) (k : nat)
  (days : list day_section) (duration : option Z) :
  Forall (fun e => one_line e = true) pool ->
  Forall (fun s => drawn_from pool k (day_exercises s)) days ->
  Forall (fun l => one_line l = true)
    (concat (section_lines (annotation goal) <$> days) ++ trailer duration).
Proof.
  intros Hpool Hdays. apply Forall_app. split; [|apply trailer_one_line].
  apply Forall_concat, Forall_fmap. eapply Forall_impl; [exact Hdays|].
  intros s Hs. simpl. apply section_lines_one_line, Forall_forall.
  intros e He. rewrite Forall_forall in Hpool. apply Hpool.
  exact (drawn_from_elem_of _ _ _ _ Hs He).
Qed.

(** ** The claims *)

Ltac solve_valid :=
  split; [|split]; [repeat constructor | lia | repeat constructor].





(** The text of that plan. *)
Example same_name_twice_text :
  fst (create_workout_plan "intermediate" "endurance" 1 "no equipment" false
         None fours)
  = Return
      ("Workout Plan (intermediate level, endurance focus, 1 days/week, no equipment):"
       +:+ nl +:+ nl
       +:+ unlines
         ["Day 1:";
          "- Mountain climbers: 3 sets of 30-60 seconds";
          "- Mountain climbers: 3 sets of 30-60 seconds";
          "- Superman holds: 3 sets of 30-60 seconds";
          "- Burpees: 3 sets of 30-60 seconds";
          "- Diamond push-ups: 3 sets of 30-60 seconds";
          "- Cool-down: 5-10 minutes of light stretching";
          ""]).
Proof. vm_compute. reflexivity. Qed.

Lemma tier_of_name (t : tier) : tier_of (tier_name t) = Some t.
Proof. destruct t; reflexivity. Qed.

Lemma tier_of_valid (fitness_level : string) :
  fitness_level ∈ tiers ->
  exists t, tier_of fitness_level = Some t /\ fitness_level = tier_name t.
Proof.
  intros Hf. apply tiers_cases in Hf as [-> | [-> | ->]];
    [exists Beginner|exists Intermediate|exists Advanced]; split; reflexivity.
Qed.

Lemma prefix_submseteq {A} (l1 l2 : list A) :
  l1 `prefix_of` l2 -> l1 ⊆+ l2 /\ (length l1 <= length l2)%nat.
Proof.
  intros [k ->]. split; [apply submseteq_inserts_r; reflexivity|].
  rewrite length_app. lia.
Qed.

(** C2.  For every request that passes the checks, the pool is the
    concatenation of the catalog entries of the tiers from beginner up to
    the requested one, in tier order, in catalog order, with nothing
    removed; so the pool of a tier at or below the requested one is a
    prefix of it, a sub-multiset of it, and no longer. *)
Theorem C2_pool_is_cumulative (fitness_level : string) (days_per_week : Z)
  (equipment : string) (bwo : bool) g :
  valid_request fitness_level days_per_week equipment ->
  exists t pool,
    tier_of fitness_level = Some t
    /\ exercise_pool fitness_level equipment bwo g = (Return pool, g)
    /\ cumulative_pool bwo equipment t = Some pool
    /\ forall t', (tier_rank t' <= tier_rank t)%nat ->
        exists pool',
          exercise_pool (tier_name t') equipment bwo g = (Return pool', g)
          /\ cumulative_pool bwo equipment t' = Some pool'
          /\ pool' `prefix_of` pool
          /\ pool' ⊆+ pool
          /\ (length pool' <= length pool)%nat.
Proof.
  intros (Hf & _ & He).
  destruct (tier_of_valid fitness_level Hf) as (t & Ht & ->).
  exists t. apply equipments_cases in He.
  set (b := default [] (catalog_cell bwo equipment Beginner)).
  set (i := default [] (catalog_cell bwo equipment Intermediate)).
  set (a := default [] (catalog_cell bwo equipment Advanced)).
  assert (Hpool : forall u,
             exercise_pool (tier_name u) equipment bwo g
             = (Return (match u with
                        | Beginner => b
                        | Intermediate => b ++ i
                        | Advanced => b ++ i ++ a
                        end), g)
             /\ cumulative_pool bwo equipment u
                = Some (match u with
                        | Beginner => b
                        | Intermediate => b ++ i
                        | Advanced => b ++ i ++ a
                        end)).
  { intros u. subst b i a.
    destruct He as [-> | [-> | ->]]; destruct bwo; destruct u;
      split; vm_compute; reflexivity. }
  clearbody b i a.
  eexists. split; [exact Ht|].
  split; [exact (proj1 (Hpool t))|]. split; [exact (proj2 (Hpool t))|].
  intros t' Hrank. eexists.
  split; [exact (proj1 (Hpool t'))|]. split; [exact (proj2 (Hpool t'))|].
  assert (Hprefix :
            (match t' with
             | Beginner => b | Intermediate => b ++ i | Advanced => b ++ i ++ a
             end)
            `prefix_of`
            (match t with
             | Beginner => b | Intermediate => b ++ i | Advanced => b ++ i ++ a
             end)).
  { destruct t, t'; simpl in Hrank; try lia;
      try reflexivity;
      [exists i|exists (i ++ a)|exists a]; rewrite <- ?app_assoc; reflexivity. }
  split; [exact Hprefix|]. exact (prefix_submseteq _ _ Hprefix).
Qed.

Lemma C2_pool_is_cumulative_witness :
  exists t pool,
    tier_of "advanced" = Some t
    /\ exercise_pool "advanced" "basic dumbbells" false fours
       = (Return pool, fours)
    /\ cumulative_pool false "basic dumbbells" t = Some pool
    /\ forall t', (tier_rank t' <= tier_rank t)%nat ->
        exists pool',
          exercise_pool (tier_name t') "basic dumbbells" false fours
          = (Return pool', fours)
          /\ cumulative_pool false "basic dumbbells" t' = Some pool'
          /\ pool' `prefix_of` pool
          /\ pool' ⊆+ pool
          /\ (length pool' <= length pool)%nat.
Proof.
  apply (C2_pool_is_cumulative "advanced" 4 "basic dumbbells" false fours).
  solve_valid.
Defined.


(** The rule for the annotation, in terms of the goal alone. *)
Lemma annotation_rule (goal : string) :
  (annotation goal = "3 sets of 10-15 reps"
   <-> mentions "weight" goal \/ mentions "muscle" goal)
  /\ (annotation goal = "3 sets of 30-60 seconds"
      <-> ~ (mentions "weight" goal \/ mentions "muscle" goal)).
Proof.
  rewrite <- !str_in_lower, <- orb_true_iff. unfold annotation, reps.
  destruct (str_in "weight" (lower goal) || str_in "muscle" (lower goal));
    cbn [String.append]; split; split; try discriminate; try tauto;
    intros H; exfalso; auto.
Qed.



Example annotation_upper_case : annotation "Build MUSCLE" = "3 sets of 10-15 reps".
Proof. reflexivity. Qed.

Example annotation_endurance : annotation "endurance" = "3 sets of 30-60 seconds".
Proof. reflexivity. Qed.

Example annotation_empty_goal : annotation "" = "3 sets of 30-60 seconds".
Proof. reflexivity. Qed.



Example invalid_level_expert :
  create_workout_plan "expert" "weight loss" 0 "home gym" false None fours
  = (Return "Invalid fitness level. Please choose beginner, intermediate, or advanced.",
     fours).
Proof. reflexivity. Qed.

Example invalid_days_zero :
  create_workout_plan "beginner" "weight loss" 0 "home gym" false None fours
  = (Return "Invalid number of days. Please choose between 1 and 7.", fours).
Proof. reflexivity. Qed.

Example invalid_days_eight :
  create_workout_plan "beginner" "weight loss" 8 "full gym" false None fours
  = (Return "Invalid number of days. Please choose between 1 and 7.", fours).
Proof. reflexivity. Qed.

Example invalid_equipment_home_gym :
  create_workout_plan "beginner" "weight loss" 3 "home gym" false None fours
  = (Return "Invalid equipment option. Please choose full gym, basic dumbbells, or no equipment.",
     fours).
Proof. reflexivity. Qed.

Lemma valid_pool_facts (fitness_level equipment : string) (bwo : bool) pool g :
  fitness_level ∈ tiers -> equipment ∈ equipments ->
  exercise_pool fitness_level equipment bwo g = (Return pool, g) ->
  (5 <= length pool <= 21)%nat /\ Forall (fun e => one_line e = true) pool.
Proof.
  intros Hf He Hpool.
  destruct (exercise_pool_valid fitness_level equipment bwo Hf He)
    as (pool' & Hpool' & Hfacts).
  rewrite Hpool' in Hpool. injection Hpool as <-. exact Hfacts.
Qed.

Lemma headings_section (ann : string) (s : day_section) :
  headings (section_lines ann s) = [day_heading (day_number s)].
Proof.
  unfold headings, section_lines.
  rewrite filter_cons_True by (apply prefix_spec; unfold day_heading; eauto).
  f_equal. rewrite filter_app.
  replace (filter _ [cool_down_line; ""]) with (@nil string) by reflexivity.
  rewrite app_nil_r.
  induction (day_exercises s) as [|e es IH]; [reflexivity|].
  cbn [fmap list_fmap]. rewrite filter_cons_False; [exact IH|].
  intros H. discriminate H.
Qed.

Lemma headings_days (ann : string) (days : list day_section) :
  headings (concat (section_lines ann <$> days))
  = day_heading <$> (day_number <$> days).
Proof.
  induction days as [|s days IH]; [reflexivity|].
  cbn [fmap list_fmap concat]. unfold headings in *.
  rewrite filter_app. fold (headings (section_lines ann s)).
  rewrite headings_section. f_equal. exact IH.
Qed.

Lemma headings_trailer (duration : option Z) : headings (trailer duration) = [].
Proof. destruct duration as [d|]; simpl; [destruct (d =? 0)|]; reflexivity. Qed.

(** The text of a plan, cut at line feeds past the header: the empty line,
    the lines of the sections, the trailer, and the empty string after the
    last line feed. *)
Lemma plan_text_split (header ann : string) (days : list day_section)
  (tail : list string) :
  Forall (fun l => one_line l = true)
    (concat (section_lines ann <$> days) ++ tail) ->
  exists body,
    plan_text header ann days tail = header +:+ nl +:+ body
    /\ split_lines body
       = "" :: (concat (section_lines ann <$> days) ++ tail) ++ [""].
Proof.
  intros Hlines.
  exists (nl +:+ unlines (concat (section_lines ann <$> days) ++ tail)).
  split; [reflexivity|].
  rewrite <- (split_lines_unlines _ Hlines).
  exact (split_lines_line "" _ eq_refl).
Qed.

(** C5.  For every request that passes the checks, the plan is the header
    followed by one section per day, numbered 1 to days_per_week, and each
    section lists min(5, pool size) exercises.  Cut at line feeds, the text
    past the header is the lines of these sections and of the trailer, and
    the headings among them are "Day 1:" to "Day days_per_week:". *)
Theorem C5_one_section_per_day (fitness_level goal : string)
  (days_per_week : Z) (equipment : string) (bwo : bool)
  (duration : option Z) g :
  valid_request fitness_level days_per_week equipment ->
  exists pool days g' body,
    exercise_pool fitness_level equipment bwo g = (Return pool, g)
    /\ create_workout_plan fitness_level goal days_per_week equipment bwo
         duration g
       = (Return (plan_text
                    (header_line fitness_level goal days_per_week equipment bwo)
                    (annotation goal) days (trailer duration)),
          g')
    /\ Z.of_nat (length days) = days_per_week
    /\ day_number <$> days = range 1 (days_per_week + 1)
    /\ Forall (fun s => length (day_exercises s) = Nat.min 5 (length pool))
         days
    /\ plan_text (header_line fitness_level goal days_per_week equipment bwo)
         (annotation goal) days (trailer duration)
       = header_line fitness_level goal days_per_week equipment bwo
         +:+ nl +:+ body
    /\ split_lines body
       = "" :: (concat (section_lines (annotation goal) <$> days)
                ++ trailer duration) ++ [""]
    /\ headings (split_lines body)
       = day_heading <$> range 1 (days_per_week + 1).
Proof.
  intros Hvalid.
  destruct (create_workout_plan_valid fitness_level goal days_per_week
              equipment bwo duration g Hvalid)
    as (pool & sels & Hpool & Hrun & Hlen & Hall).
  destruct Hvalid as (Hf & Hd & He).
  destruct (valid_pool_facts _ _ _ _ _ Hf He Hpool) as [_ Hlines].
  pose proof (number_days_Forall _ sels Hall 1) as Hdrawn.
  pose proof (plan_lines_one_line goal pool _ _ duration Hlines Hdrawn)
    as Hone.
  destruct (plan_text_split
              (header_line fitness_level goal days_per_week equipment bwo)
              _ _ _ Hone) as (body & Hbody & Hsplit).
  assert (Hnumbers : day_number <$> number_days 1 sels
                     = range 1 (days_per_week + 1))
    by (rewrite number_days_numbers; f_equal; lia).
  exists pool, (number_days 1 sels). eexists. exists body.
  split; [exact Hpool|]. split; [exact Hrun|].
  split; [rewrite number_days_length; lia|].
  split; [exact Hnumbers|].
  split; [eapply Forall_impl; [exact Hdrawn|];
          intros s Hs; exact (drawn_from_length _ _ _ Hs)|].
  split; [exact Hbody|]. split; [exact Hsplit|].
  rewrite Hsplit. unfold headings.
  rewrite filter_cons_False by (intros H; discriminate H).
  rewrite !filter_app. fold (headings (trailer duration)).
  fold (headings (concat (section_lines (annotation goal)
                            <$> number_days 1 sels))).
  rewrite headings_days, headings_trailer, Hnumbers.
  replace (filter _ [""]) with (@nil string) by reflexivity.
  rewrite !app_nil_r. reflexivity.
Qed.

Lemma C5_one_section_per_day_witness :
  exists pool days g' body,
    exercise_pool "intermediate" "full gym" true fours = (Return pool, fours)
    /\ create_workout_plan "intermediate" "endurance" 7 "full gym" true
         (Some 30) fours
       = (Return (plan_text
                    (header_line "intermediate" "endurance" 7 "full gym" true)
                    (annotation "endurance") days (trailer (Some 30))),
          g')
    /\ Z.of_nat (length days) = 7
    /\ day_number <$> days = range 1 (7 + 1)
    /\ Forall (fun s => length (day_exercises s) = Nat.min 5 (length pool))
         days
    /\ plan_text (header_line "intermediate" "endurance" 7 "full gym" true)
         (annotation "endurance") days (trailer (Some 30))
       = header_line "intermediate" "endurance" 7 "full gym" true
         +:+ nl +:+ body
    /\ split_lines body
       = "" :: (concat (section_lines (annotation "endurance") <$> days)
                ++ trailer (Some 30)) ++ [""]
    /\ headings (split_lines body) = day_heading <$> range 1 (7 + 1).
Proof.
  apply (C5_one_section_per_day
           "intermediate" "endurance" 7 "full gym" true (Some 30) fours).
  solve_valid.
Defined.





Example advisory_45 :
  advisory_line 45 = "Aim to complete each workout session in about 45 minutes.".
Proof. reflexivity. Qed.


(** C7.  The request beginner, "weight loss", 3 days, "no equipment", not
    body-weight-only: whatever the generator does, the plan has the three
    sections Day 1, Day 2, Day 3; each lists five exercises, every one of
    them among the five names of the beginner / no-equipment cell; every
    exercise line ends in "3 sets of 10-15 reps"; every section closes with
    the cool-down line and an empty line. *)
Theorem C7_beginner_weight_loss_example (duration : option Z) g :
  exists days g',
    create_workout_plan "beginner" "weight loss" 3 "no equipment" false
      duration g
    = (Return (plan_text
                 "Workout Plan (beginner level, weight loss focus, 3 days/week, no equipment):"
                 "3 sets of 10-15 reps" days (trailer duration)),
       g')
    /\ length days = 3%nat
    /\ day_number <$> days = [1; 2; 3]
    /\ exercises !! "beginner" ≫= (fun row => row !! "no equipment")
       = Some ["Bodyweight squats"; "Push-ups"; "Walking lunges"; "Plank";
               "Mountain climbers"]
    /\ Forall (fun s =>
                 length (day_exercises s) = 5%nat
                 /\ (forall e, e ∈ day_exercises s ->
                      e ∈ ["Bodyweight squats"; "Push-ups"; "Walking lunges";
                           "Plank"; "Mountain climbers"])
                 /\ section_lines "3 sets of 10-15 reps" s
                    = day_heading (day_number s)
                      :: ((fun e => "- " +:+ e +:+ ": 3 sets of 10-15 reps")
                            <$> day_exercises s)
                      ++ ["- Cool-down: 5-10 minutes of light stretching"; ""])
         days.
Proof.
  assert (Hvalid : valid_request "beginner" 3 "no equipment") by solve_valid.
  destruct (create_workout_plan_valid "beginner" "weight loss" 3 "no equipment"
              false duration g Hvalid)
    as (pool & sels & Hpool & Hrun & Hlen & Hall).
  vm_compute in Hpool. injection Hpool as <-.
  exists (number_days 1 sels). eexists. split; [exact Hrun|].
  split; [rewrite number_days_length; exact Hlen|].
  split; [rewrite number_days_numbers, Hlen; reflexivity|].
  split; [reflexivity|].
  apply Forall_forall. intros s Hs.
  pose proof (number_days_Forall _ sels Hall 1) as Hdrawn.
  rewrite Forall_forall in Hdrawn.
  split; [exact (drawn_from_length _ _ _ (Hdrawn s Hs))|].
  split; [|reflexivity].
  intros e He. exact (drawn_from_elem_of _ _ _ _ (Hdrawn s Hs) He).
Qed.

(** The text for this request when every raw draw is 4. *)
Example beginner_weight_loss_text :
  fst (create_workout_plan "beginner" "weight loss" 3 "no equipment" false
         None fours)
  = Return
      ("Workout Plan (beginner level, weight loss focus, 3 days/week, no equipment):"
       +:+ nl +:+ nl
       +:+ unlines
         ["Day 1:";
          "- Mountain climbers: 3 sets of 10-15 reps";
          "- Bodyweight squats: 3 sets of 10-15 reps";
          "- Push-ups: 3 sets of 10-15 reps";
          "- Plank: 3 sets of 10-15 reps";
          "- Walking lunges: 3 sets of 10-15 reps";
          "- Cool-down: 5-10 minutes of light stretching";
          "";
          "Day 2:";
          "- Mountain climbers: 3 sets of 10-15 reps";
          "- Bodyweight squats: 3 sets of 10-15 reps";
          "- Push-ups: 3 sets of 10-15 reps";
          "- Plank: 3 sets of 10-15 reps";
          "- Walking lunges: 3 sets of 10-15 reps";
          "- Cool-down: 5-10 minutes of light stretching";
          "";
          "Day 3:";
          "- Mountain climbers: 3 sets of 10-15 reps";
          "- Bodyweight squats: 3 sets of 10-15 reps";
          "- Push-ups: 3 sets of 10-15 reps";
          "- Plank: 3 sets of 10-15 reps";
          "- Walking lunges: 3 sets of 10-15 reps";
          "- Cool-down: 5-10 minutes of light stretching";
          ""]).
Proof. vm_compute. reflexivity. Qed.

(** C8, as the code has it.  For every request that passes the checks the
    pool has at most 21 entries, and at most 15 when body_weight_only is
    false; so it never exceeds the size up to which [random.sample] runs
    the algorithm modelled here. *)
Theorem C8_pool_at_most_21 (fitness_level : string) (days_per_week : Z)
  (equipment : string) (bwo : bool) g :
  valid_request fitness_level days_per_week equipment ->
  exists pool,
    exercise_pool fitness_level equipment bwo g = (Return pool, g)
    /\ (length pool <= 21)%nat
    /\ (bwo = false -> length pool <= 15)%nat
    /\ (length pool <= setsize (Nat.min 5 (length pool)))%nat.
Proof.
  intros (Hf & _ & He).
  each_request Hf He; destruct bwo;
    (eexists; split; [vm_compute; reflexivity|]);
    vm_compute; repeat split; intros; try discriminate; lia.
Qed.

Lemma C8_pool_at_most_21_witness :
  exists pool,
    exercise_pool "advanced" "full gym" false fours = (Return pool, fours)
    /\ (length pool <= 21)%nat
    /\ (false = false -> length pool <= 15)%nat
    /\ (length pool <= setsize (Nat.min 5 (length pool)))%nat.
Proof.
  apply (C8_pool_at_most_21 "advanced" 7 "full gym" false fours).
  solve_valid.
Defined.

(** C8 as stated fails: the advanced body-weight pool holds the three
    body-weight lists of 7 names each, 21 entries, more than 17. *)
Lemma C8_advanced_body_weight_pool_has_21 :
  valid_request "advanced" 7 "no equipment"
  /\ exists pool,
      exercise_pool "advanced" "no equipment" true fours = (Return pool, fours)
      /\ length pool = 21%nat
      /\ ~ (length pool <= 17)%nat.
Proof.
  split; [solve_valid|].
  eexists. split; [vm_compute; reflexivity|].
  split; [reflexivity|]. vm_compute. lia.
Qed.

(** C9.  The equipment check does not look at body_weight_only: with the
    flag set, a known fitness level and 1 to 7 days, an equipment string
    outside the three categories gets the equipment message and no plan,
    and no draw is made; yet the body-weight pool is the same whatever the
    equipment string is. *)
Theorem C9_equipment_checked_for_body_weight (fitness_level goal : string)
  (days_per_week : Z) (equipment : string) (duration : option Z) g :
  fitness_level ∈ tiers ->
  1 <= days_per_week <= 7 ->
  equipment ∉ equipments ->
  create_workout_plan fitness_level goal days_per_week equipment true
    duration g = (Return InvalidEquipment, g)
  /\ is_plan InvalidEquipment = false
  /\ (forall other,
        exercise_pool fitness_level other true g
        = exercise_pool fitness_level equipment true g)
  /\ exists pool,
      exercise_pool fitness_level equipment true g = (Return pool, g).
Proof.
  intros Hf Hd He.
  split; [exact (create_workout_plan_bad_equipment _ goal _ _ true duration g
                   Hf Hd He)|].
  split; [reflexivity|]. split; [reflexivity|].
  apply tiers_cases in Hf as [-> | [-> | ->]];
    eexists; vm_compute; reflexivity.
Qed.

Lemma C9_equipment_checked_for_body_weight_witness :
  create_workout_plan "advanced" "muscle gain" 3 "home gym" true None fours
  = (Return InvalidEquipment, fours)
  /\ is_plan InvalidEquipment = false
  /\ (forall other,
        exercise_pool "advanced" other true fours
        = exercise_pool "advanced" "home gym" true fours)
  /\ exists pool,
      exercise_pool "advanced" "home gym" true fours = (Return pool, fours).
Proof.
  apply (C9_equipment_checked_for_body_weight
           "advanced" "muscle gain" 3 "home gym" None fours).
  - repeat constructor.
  - lia.
  - intros H. apply equipments_cases in H as [H | [H | H]]; discriminate H.
Defined.




(** ** Further properties of the planner *)

(** One draw of a day: it returns for every pool, it holds min(5, size)
    entries, and with what is left it rearranges the pool. *)
Lemma daily_exercises_returns (pool : list string) g :
  exists sel rest,
    daily_exercises pool g
    = (Return sel,
       {| stream := stream g;
          cursor := (cursor g + Nat.min 5 (length pool))%nat |})
    /\ length sel = Nat.min 5 (length pool)
    /\ sel ++ rest ≡ₚ pool.
Proof.
  unfold daily_exercises.
  apply (sample_returns pool (Nat.min 5 (length pool)) g). lia.
Qed.

Lemma day_body_draw (goal : string) (pool : list string) (day : Z)
  (workout_plan : string) g sel g' :
  daily_exercises pool g = (Return sel, g') ->
  day_body goal pool day workout_plan g
  = (Return (workout_plan
             +:+ unlines (section_lines (annotation goal) (DaySection day sel))),
     g').
Proof.
  intros Hrun. unfold day_body, bind. rewrite Hrun. unfold ret.
  rewrite exercise_loop. unfold section_lines, day_heading.
  cbn [day_number day_exercises unlines]. rewrite unlines_app.
  cbn [unlines]. rewrite !string_app_assoc. reflexivity.
Qed.

Lemma day_draws_length (pool : list string) (n : nat) :
  forall g, length (day_draws pool n g) = n.
Proof.
  induction n as [|n IH]; intros g; [reflexivity|].
  destruct (daily_exercises_returns pool g) as (sel & rest & Hrun & _).
  cbn [day_draws]. rewrite Hrun. cbn [length]. rewrite IH. reflexivity.
Qed.

(** What holds of every draw holds of every day. *)
Lemma day_draws_Forall (P : list string -> Prop) (pool : list string) :
  (forall g sel g', daily_exercises pool g = (Return sel, g') -> P sel) ->
  forall n g, Forall P (day_draws pool n g).
Proof.
  intros HP n. induction n as [|n IH]; intros g; [constructor|].
  cbn [day_draws].
  destruct (daily_exercises pool g) as [[sel|e] g1] eqn:Hrun; constructor.
  - exact (HP _ _ _ Hrun).
  - apply IH.
Qed.

(** The loop over the days, with its selections named. *)
Lemma days_loop_draws (goal : string) (pool : list string) (n : nat) :
  forall (first : Z) (workout_plan : string) g,
    for_each (range first (first + Z.of_nat n)) (day_body goal pool)
      workout_plan g
    = (Return (workout_plan
               +:+ unlines (concat (section_lines (annotation goal)
                                      <$> number_days first
                                            (day_draws pool n g)))),
       {| stream := stream g;
          cursor := (cursor g + n * Nat.min 5 (length pool))%nat |}).
Proof.
  induction n as [|n IH]; intros first wp g.
  - rewrite Z.add_0_r, range_nil. simpl. unfold ret.
    rewrite string_app_nil_r, Nat.add_0_r. destruct g. reflexivity.
  - rewrite range_cons.
    destruct (daily_exercises_returns pool g) as (sel & rest & Hrun & _).
    rewrite (for_each_cons_return _ _ _ _ _ _ _
               (day_body_draw goal pool first wp g sel _ Hrun)).
    rewrite IH. cbn [day_draws]. rewrite Hrun.
    cbn [number_days fmap list_fmap concat stream cursor].
    rewrite unlines_app, string_app_assoc. do 2 f_equal. lia.
Qed.

(** Past the checks: the plan in terms of the pool and of the draws. *)
Lemma create_workout_plan_draws (fitness_level goal : string)
  (days_per_week : Z) (equipment : string) (bwo : bool)
  (duration : option Z) g pool :
  valid_request fitness_level days_per_week equipment ->
  exercise_pool fitness_level equipment bwo g = (Return pool, g) ->
  create_workout_plan fitness_level goal days_per_week equipment bwo
    duration g
  = (Return (plan_text
               (header_line fitness_level goal days_per_week equipment bwo)
               (annotation goal)
               (number_days 1 (day_draws pool (Z.to_nat days_per_week) g))
               (trailer duration)),
     {| stream := stream g;
        cursor := (cursor g + Z.to_nat days_per_week
                              * Nat.min 5 (length pool))%nat |}).
Proof.
  intros (Hf & Hd & He) Hpool.
  unfold create_workout_plan.
  rewrite dict_contains_exercises, days_check, list_contains_equipments.
  rewrite !bool_decide_eq_true_2 by assumption. cbn [negb]. cbv zeta.
  unfold bind. rewrite Hpool.
  replace (days_per_week + 1) with (1 + Z.of_nat (Z.to_nat days_per_week))
    by lia.
  rewrite days_loop_draws. unfold ret. rewrite trailer_text.
  unfold plan_text, header_line.
  rewrite unlines_app, !string_app_assoc. reflexivity.
Qed.


(** X2.  The draw of a day never raises, whatever the pool, the empty one
    included: it returns min(5, size) of the pool's entries, none more
    often than the pool holds it, and the whole pool in some order when the
    pool has at most 5 entries. *)
Theorem X2_day_draw_never_raises (pool : list string) g :
  exists sel g',
    daily_exercises pool g = (Return sel, g')
    /\ length sel = Nat.min 5 (length pool)
    /\ sel ⊆+ pool
    /\ ((length pool <= 5)%nat -> sel ≡ₚ pool).
Proof.
  destruct (daily_exercises_returns pool g)
    as (sel & rest & Hrun & Hlen & Hperm).
  assert (Hsub : sel ⊆+ pool)
    by (rewrite <- Hperm; apply submseteq_inserts_r; reflexivity).
  exists sel. eexists. split; [exact Hrun|]. split; [exact Hlen|].
  split; [exact Hsub|].
  intros Hsmall. apply submseteq_length_Permutation; [exact Hsub|]. lia.
Qed.

Example day_draw_empty_pool :
  daily_exercises [] fours = (Return [], fours).
Proof. reflexivity. Qed.

Example day_draw_short_pool :
  fst (daily_exercises ["Plank"; "Burpees"] fours)
  = Return ["Plank"; "Burpees"].
Proof. reflexivity. Qed.

Lemma draw_whole_pool (pool : list string) g sel g' :
  length pool = 5%nat ->
  daily_exercises pool g = (Return sel, g') ->
  sel ≡ₚ pool.
Proof.
  intros Hfive Hrun.
  destruct (daily_exercises_returns pool g)
    as (sel' & rest & Hrun' & Hlen & Hperm).
  rewrite Hrun' in Hrun. injection Hrun as <- _.
  apply submseteq_length_Permutation; [|lia].
  rewrite <- Hperm. apply submseteq_inserts_r. reflexivity.
Qed.

(** X3.  A beginner plan that is not body-weight-only lists, on every day,
    all five names of the beginner cell of the requested equipment: the
    days differ in the order of the exercises only. *)
Theorem X3_beginner_days_list_whole_cell (goal : string) (days_per_week : Z)
  (equipment : string) (duration : option Z) g :
  1 <= days_per_week <= 7 ->
  equipment ∈ equipments ->
  exists names days g',
    exercises !! "beginner" ≫= (fun row => row !! equipment) = Some names
    /\ create_workout_plan "beginner" goal days_per_week equipment false
         duration g
       = (Return (plan_text
                    (header_line "beginner" goal days_per_week equipment false)
                    (annotation goal) days (trailer duration)),
          g')
    /\ Z.of_nat (length days) = days_per_week
    /\ Forall (fun s => day_exercises s ≡ₚ names) days.
Proof.
  intros Hd He.
  assert (Hcell : exists names,
             exercises !! "beginner" ≫= (fun row => row !! equipment)
             = Some names
             /\ length names = 5%nat
             /\ exercise_pool "beginner" equipment false g
                = (Return names, g)).
  { apply equipments_cases in He as [-> | [-> | ->]];
      eexists; repeat split; reflexivity. }
  destruct Hcell as (names & Hnames & Hfive & Hpool).
  assert (Hvalid : valid_request "beginner" days_per_week equipment).
  { split; [repeat constructor|]. split; [exact Hd|].
    apply equipments_cases in He as [-> | [-> | ->]]; repeat constructor. }
  exists names. do 2 eexists. split; [exact Hnames|].
  split; [exact (create_workout_plan_draws _ goal _ _ _ duration g names
                   Hvalid Hpool)|].
  split; [rewrite number_days_length, day_draws_length; lia|].
  apply (number_days_Forall (fun sel => sel ≡ₚ names)).
  apply day_draws_Forall. intros g1 sel g2 Hrun.
  exact (draw_whole_pool names g1 sel g2 Hfive Hrun).
Qed.

Lemma X3_beginner_days_list_whole_cell_witness :
  exists names days g',
    exercises !! "beginner" ≫= (fun row => row !! "basic dumbbells")
    = Some names
    /\ create_workout_plan "beginner" "endurance" 4 "basic dumbbells" false
         None fours
       = (Return (plan_text
                    (header_line "beginner" "endurance" 4 "basic dumbbells"
                                 false)
                    (annotation "endurance") days (trailer None)),
          g')
    /\ Z.of_nat (length days) = 4
    /\ Forall (fun s => day_exercises s ≡ₚ names) days.
Proof.
  apply (X3_beginner_days_list_whole_cell
           "endurance" 4 "basic dumbbells" None fours).
  - lia.
  - repeat constructor.
Defined.

(** The pool the program builds is the cumulative pool of the tier. *)
Lemma exercise_pool_cumulative (t : tier) (equipment : string) (bwo : bool)
  pool g :
  equipment ∈ equipments ->
  exercise_pool (tier_name t) equipment bwo g = (Return pool, g) ->
  cumulative_pool bwo equipment t = Some pool.
Proof.
  intros He Hpool. apply equipments_cases in He.
  destruct He as [-> | [-> | ->]]; destruct bwo; destruct t;
    vm_compute in Hpool; injection Hpool as <-; vm_compute; reflexivity.
Qed.

(** Every entry of a cumulative pool is an entry of the catalog cell of a
    tier at or below the requested one. *)
Lemma cumulative_pool_elem_of (bwo : bool) (equipment : string) (t : tier)
  pool e :
  cumulative_pool bwo equipment t = Some pool ->
  e ∈ pool ->
  exists t' names,
    (tier_rank t' <= tier_rank t)%nat
    /\ catalog_cell bwo equipment t' = Some names
    /\ e ∈ names.
Proof.
  unfold cumulative_pool. intros Hpool He.
  destruct (mapM (catalog_cell bwo equipment) (tiers_upto t)) as [cells|]
    eqn:Hcells; [|discriminate Hpool].
  simpl in Hpool. injection Hpool as <-.
  apply mapM_Some_1 in Hcells.
  apply list_elem_of_In, in_concat in He as (names & Hnames & He).
  apply list_elem_of_In, list_elem_of_lookup in Hnames as [i Hi].
  destruct (Forall2_lookup_r _ _ _ _ _ Hcells Hi) as (t' & Ht' & Hcell).
  exists t', names. split; [|split; [exact Hcell|apply list_elem_of_In, He]].
  assert (Hin : t' ∈ tiers_upto t) by (apply list_elem_of_lookup; eauto).
  unfold tiers_upto in Hin. apply list_elem_of_filter in Hin as [Hrank _].
  exact Hrank.
Qed.

(** X4.  A plan never lists an exercise from above the requested tier: for
    every request that passes the checks, every exercise of every day
    stands in the catalog cell of a tier at or below the requested one, in
    the body-weight catalog when body_weight_only is set and in the column
    of the requested equipment otherwise. *)
Theorem X4_exercises_within_tier (fitness_level goal : string)
  (days_per_week : Z) (equipment : string) (bwo : bool)
  (duration : option Z) g :
  valid_request fitness_level days_per_week equipment ->
  exists t days g',
    tier_of fitness_level = Some t
    /\ create_workout_plan fitness_level goal days_per_week equipment bwo
         duration g
       = (Return (plan_text
                    (header_line fitness_level goal days_per_week equipment bwo)
                    (annotation goal) days (trailer duration)),
          g')
    /\ Forall (fun s =>
                 forall e, e ∈ day_exercises s ->
                   exists t' names,
                     (tier_rank t' <= tier_rank t)%nat
                     /\ catalog_cell bwo equipment t' = Some names
                     /\ e ∈ names)
         days.
Proof.
  intros Hvalid. pose proof Hvalid as (Hf & _ & He).
  destruct (tier_of_valid fitness_level Hf) as (t & Ht & ->).
  destruct (exercise_pool_valid (tier_name t) equipment bwo Hf He)
    as (pool & Hpool & _).
  exists t. do 2 eexists. split; [exact Ht|].
  split; [exact (create_workout_plan_draws _ goal _ _ _ duration g pool
                   Hvalid (Hpool g))|].
  apply (number_days_Forall
           (fun sel => forall e, e ∈ sel ->
              exists t' names,
                (tier_rank t' <= tier_rank t)%nat
                /\ catalog_cell bwo equipment t' = Some names
                /\ e ∈ names)).
  apply day_draws_Forall. intros g1 sel g2 Hrun e Hin.
  apply (cumulative_pool_elem_of bwo equipment t pool e).
  - exact (exercise_pool_cumulative t equipment bwo pool g He (Hpool g)).
  - destruct (daily_exercises_returns pool g1)
      as (sel' & rest & Hrun' & _ & Hperm).
    rewrite Hrun' in Hrun. injection Hrun as <- _.
    rewrite <- Hperm. apply elem_of_app. left. exact Hin.
Qed.

Lemma X4_exercises_within_tier_witness :
  exists t days g',
    tier_of "intermediate" = Some t
    /\ create_workout_plan "intermediate" "endurance" 2 "full gym" false
         None fours
       = (Return (plan_text
                    (header_line "intermediate" "endurance" 2 "full gym" false)
                    (annotation "endurance") days (trailer None)),
          g')
    /\ Forall (fun s =>
                 forall e, e ∈ day_exercises s ->
                   exists t' names,
                     (tier_rank t' <= tier_rank t)%nat
                     /\ catalog_cell false "full gym" t' = Some names
                     /\ e ∈ names)
         days.
Proof.
  apply (X4_exercises_within_tier
           "intermediate" "endurance" 2 "full gym" false None fours).
  solve_valid.
Defined.

(** No name stands more than twice in a pool, and the only names that
    stand twice are "Dumbbell lunges" and "Mountain climbers", in pools
    that are not body-weight-only. *)
Lemma pool_occurrences (fitness_level equipment : string) (bwo : bool)
  pool g :
  fitness_level ∈ tiers -> equipment ∈ equipments ->
  exercise_pool fitness_level equipment bwo g = (Return pool, g) ->
  forall e,
    (occurrences e pool <= 2)%nat
    /\ (occurrences e pool = 2%nat ->
        bwo = false /\ (e = "Dumbbell lunges" \/ e = "Mountain climbers")).
Proof.
  intros Hf He Hpool.
  assert (Hcheck :
            forallb (fun e =>
                       (occurrences e pool <=? 2)%nat
                       && ((occurrences e pool <? 2)%nat
                           || (negb bwo
                               && (String.eqb e "Dumbbell lunges"
                                   || String.eqb e "Mountain climbers"))))
                    pool = true).
  { each_request Hf He; destruct bwo;
      vm_compute in Hpool; injection Hpool as <-; vm_compute; reflexivity. }
  intros e. destruct (in_dec string_dec e pool) as [Hin|Hout].
  - rewrite forallb_forall in Hcheck. specialize (Hcheck e Hin).
    apply andb_true_iff in Hcheck as [Hle Hwhich].
    apply Nat.leb_le in Hle. split; [exact Hle|]. intros Htwo.
    apply orb_true_iff in Hwhich as [Hlt|Hwhich];
      [apply Nat.ltb_lt in Hlt; lia|].
    apply andb_true_iff in Hwhich as [Hbwo Hname].
    apply negb_true_iff in Hbwo. split; [exact Hbwo|].
    apply orb_true_iff in Hname as [Hname|Hname];
      apply String.eqb_eq in Hname; auto.
  - apply (count_occ_not_In string_dec) in Hout.
    unfold occurrences. rewrite Hout. split; [lia|]. discriminate.
Qed.

(** X5.  For every request that passes the checks, a day lists a name no
    more often than the pool holds it, hence at most twice; and a name
    listed twice in a day is "Dumbbell lunges" or "Mountain climbers", in
    a plan that is not body-weight-only. *)
Theorem X5_name_at_most_twice_a_day (fitness_level goal : string)
  (days_per_week : Z) (equipment : string) (bwo : bool)
  (duration : option Z) g :
  valid_request fitness_level days_per_week equipment ->
  exists pool days g',
    exercise_pool fitness_level equipment bwo g = (Return pool, g)
    /\ create_workout_plan fitness_level goal days_per_week equipment bwo
         duration g
       = (Return (plan_text
                    (header_line fitness_level goal days_per_week equipment bwo)
                    (annotation goal) days (trailer duration)),
          g')
    /\ Forall (fun s =>
                 forall e,
                   (occurrences e (day_exercises s) <= occurrences e pool)%nat
                   /\ (occurrences e (day_exercises s) <= 2)%nat
                   /\ (occurrences e (day_exercises s) = 2%nat ->
                       bwo = false
                       /\ (e = "Dumbbell lunges" \/ e = "Mountain climbers")))
         days.
Proof.
  intros Hvalid. pose proof Hvalid as (Hf & _ & He).
  destruct (exercise_pool_valid fitness_level equipment bwo Hf He)
    as (pool & Hpool & _).
  exists pool. do 2 eexists. split; [exact (Hpool g)|].
  split; [exact (create_workout_plan_draws _ goal _ _ _ duration g pool
                   Hvalid (Hpool g))|].
  apply (number_days_Forall
           (fun sel => forall e,
              (occurrences e sel <= occurrences e pool)%nat
              /\ (occurrences e sel <= 2)%nat
              /\ (occurrences e sel = 2%nat ->
                  bwo = false
                  /\ (e = "Dumbbell lunges" \/ e = "Mountain climbers")))).
  apply day_draws_Forall. intros g1 sel g2 Hrun e.
  destruct (daily_exercises_returns pool g1)
    as (sel' & rest & Hrun' & _ & Hperm).
  rewrite Hrun' in Hrun. injection Hrun as <- _.
  destruct (pool_occurrences _ _ _ _ _ Hf He (Hpool g) e) as [Htwo Hwhich].
  assert (Hle : (occurrences e sel' <= occurrences e pool)%nat).
  { unfold occurrences.
    rewrite <- (proj1 (Permutation_count_occ string_dec _ _) Hperm e).
    rewrite count_occ_app. lia. }
  split; [exact Hle|]. split; [lia|].
  intros Hsel. apply Hwhich. lia.
Qed.

Lemma X5_name_at_most_twice_a_day_witness :
  exists pool days g',
    exercise_pool "intermediate" "no equipment" false fours
    = (Return pool, fours)
    /\ create_workout_plan "intermediate" "endurance" 1 "no equipment" false
         None fours
       = (Return (plan_text
                    (header_line "intermediate" "endurance" 1 "no equipment"
                                 false)
                    (annotation "endurance") days (trailer None)),
          g')
    /\ Forall (fun s =>
                 forall e,
                   (occurrences e (day_exercises s) <= occurrences e pool)%nat
                   /\ (occurrences e (day_exercises s) <= 2)%nat
                   /\ (occurrences e (day_exercises s) = 2%nat ->
                       false = false
                       /\ (e = "Dumbbell lunges" \/ e = "Mountain climbers")))
         days.
Proof.
  apply (X5_name_at_most_twice_a_day
           "intermediate" "endurance" 1 "no equipment" false None fours).
  solve_valid.
Defined.

(** X6.  With body_weight_only set, the equipment only has to pass its
    check: two calls that differ in nothing but the choice among the three
    recognised equipment strings return the same string and leave the
    generator in the same state, whatever the other arguments are. *)
Theorem X6_equipment_ignored_when_body_weight_only
  (fitness_level goal : string) (days_per_week : Z)
  (equipment1 equipment2 : string) (duration : option Z) g :
  equipment1 ∈ equipments ->
  equipment2 ∈ equipments ->
  create_workout_plan fitness_level goal days_per_week equipment1 true
    duration g
  = create_workout_plan fitness_level goal days_per_week equipment2 true
      duration g.
Proof.
  intros He1 He2. unfold create_workout_plan.
  rewrite !list_contains_equipments.
  rewrite !bool_decide_eq_true_2 by assumption. reflexivity.
Qed.

Lemma X6_equipment_ignored_when_body_weight_only_witness :
  create_workout_plan "advanced" "muscle gain" 3 "full gym" true (Some 20)
    fours
  = create_workout_plan "advanced" "muscle gain" 3 "no equipment" true
      (Some 20) fours.
Proof.
  apply (X6_equipment_ignored_when_body_weight_only
           "advanced" "muscle gain" 3 "full gym" "no equipment" (Some 20)
           fours); repeat constructor.
Defined.



Lemma day_draws_snoc (pool : list string) (n : nat) :
  forall g, exists last, day_draws pool (S n) g = day_draws pool n g ++ [last].
Proof.
  induction n as [|n IH]; intros g.
  - destruct (daily_exercises_returns pool g) as (sel & rest & Hrun & _).
    exists sel. cbn [day_draws]. rewrite Hrun. reflexivity.
  - destruct (daily_exercises_returns pool g) as (sel & rest & Hrun & _).
    destruct (IH {| stream := stream g;
                    cursor := (cursor g + Nat.min 5 (length pool))%nat |})
      as (last & Hlast).
    exists last. cbn [day_draws] in Hlast |- *. rewrite Hrun in *.
    cbn [day_draws]. rewrite Hlast. reflexivity.
Qed.

Lemma number_days_snoc (first : Z) (sels : list (list string))
  (last : list string) :
  number_days first (sels ++ [last])
  = number_days first sels
    ++ [DaySection (first + Z.of_nat (length sels)) last].
Proof.
  revert first. induction sels as [|sel sels IH]; intros first.
  - simpl. rewrite Z.add_0_r. reflexivity.
  - cbn [app number_days length]. rewrite IH.
    replace (first + 1 + Z.of_nat (length sels))
      with (first + Z.of_nat (S (length sels))) by lia.
    reflexivity.
Qed.

(** X8.  Asking for one more day adds one section and changes none: for
    the same generator state, the sections of the plan for n + 1 days are
    the sections of the plan for n days followed by the section of day
    n + 1. *)
Theorem X8_one_more_day_appends_a_section (fitness_level goal : string)
  (days_per_week : Z) (equipment : string) (bwo : bool)
  (duration : option Z) g :
  valid_request fitness_level days_per_week equipment ->
  days_per_week + 1 <= 7 ->
  exists days last g1 g2,
    create_workout_plan fitness_level goal days_per_week equipment bwo
      duration g
    = (Return (plan_text
                 (header_line fitness_level goal days_per_week equipment bwo)
                 (annotation goal) days (trailer duration)),
       g1)
    /\ create_workout_plan fitness_level goal (days_per_week + 1) equipment
         bwo duration g
       = (Return (plan_text
                    (header_line fitness_level goal (days_per_week + 1)
                                 equipment bwo)
                    (annotation goal)
                    (days ++ [DaySection (days_per_week + 1) last])
                    (trailer duration)),
          g2)
    /\ Z.of_nat (length days) = days_per_week.
Proof.
  intros Hvalid Hmore. pose proof Hvalid as (Hf & Hd & He).
  destruct (exercise_pool_valid fitness_level equipment bwo Hf He)
    as (pool & Hpool & _).
  assert (Hvalid' : valid_request fitness_level (days_per_week + 1) equipment)
    by (split; [exact Hf|]; split; [lia|exact He]).
  destruct (day_draws_snoc pool (Z.to_nat days_per_week) g) as (last & Hlast).
  exists (number_days 1 (day_draws pool (Z.to_nat days_per_week) g)), last.
  do 2 eexists.
  split; [exact (create_workout_plan_draws _ goal _ _ _ duration g pool
                   Hvalid (Hpool g))|].
  split; [|rewrite number_days_length, day_draws_length; lia].
  rewrite (create_workout_plan_draws _ goal _ _ _ duration g pool
             Hvalid' (Hpool g)).
  replace (Z.to_nat (days_per_week + 1)) with (S (Z.to_nat days_per_week))
    by lia.
  rewrite Hlast, number_days_snoc, day_draws_length.
  replace (1 + Z.of_nat (Z.to_nat days_per_week)) with (days_per_week + 1)
    by lia.
  reflexivity.
Qed.

Lemma X8_one_more_day_appends_a_section_witness :
  exists days last g1 g2,
    create_workout_plan "beginner" "weight loss" 3 "full gym" false None fours
    = (Return (plan_text
                 (header_line "beginner" "weight loss" 3 "full gym" false)
                 (annotation "weight loss") days (trailer None)),
       g1)
    /\ create_workout_plan "beginner" "weight loss" (3 + 1) "full gym" false
         None fours
       = (Return (plan_text
                    (header_line "beginner" "weight loss" (3 + 1) "full gym"
                                 false)
                    (annotation "weight loss")
                    (days ++ [DaySection (3 + 1) last])
                    (trailer None)),
          g2)
    /\ Z.of_nat (length days) = 3.
Proof.
  apply (X8_one_more_day_appends_a_section
           "beginner" "weight loss" 3 "full gym" false None fours).
  - solve_valid.
  - lia.
Defined.

Lemma header_one_line (fitness_level goal : string) (days_per_week : Z)
  (equipment : string) (bwo : bool) :
  fitness_level ∈ tiers -> equipment ∈ equipments ->
  one_line goal = true ->
  one_line (header_line fitness_level goal days_per_week equipment bwo) = true.
Proof.
  intros Hf He Hgoal. unfold header_line.
  rewrite !one_line_app, Hgoal, str_one_line.
  each_request Hf He; destruct bwo; reflexivity.
Qed.

Lemma section_lines_length (ann : string) (s : day_section) :
  length (section_lines ann s) = (length (day_exercises s) + 3)%nat.
Proof.
  unfold section_lines. cbn [length].
  rewrite length_app, length_fmap. cbn [length]. lia.
Qed.

Lemma sections_length (ann : string) (days : list day_section) :
  Forall (fun s => length (day_exercises s) = 5%nat) days ->
  length (concat (section_lines ann <$> days)) = (8 * length days)%nat.
Proof.
  induction 1 as [|s days Hs _ IH]; [reflexivity|].
  cbn [fmap list_fmap concat length].
  rewrite length_app, section_lines_length, Hs, IH. lia.
Qed.

(** X9.  When the goal holds no line feed, the text of a plan cut at line
    feeds is: the header, an empty line, the lines of the sections, the
    trailer, and the empty string after the closing line feed; every
    section has 8 lines, so there are 8 * days_per_week + 3 pieces, and one
    more with the advisory. *)
Theorem X9_lines_of_a_plan (fitness_level goal : string)
  (days_per_week : Z) (equipment : string) (bwo : bool)
  (duration : option Z) g :
  valid_request fitness_level days_per_week equipment ->
  one_line goal = true ->
  exists days out g',
    create_workout_plan fitness_level goal days_per_week equipment bwo
      duration g = (Return out, g')
    /\ split_lines out
       = header_line fitness_level goal days_per_week equipment bwo
         :: "" :: (concat (section_lines (annotation goal) <$> days)
                   ++ trailer duration) ++ [""]
    /\ Z.of_nat (length days) = days_per_week
    /\ Forall (fun s => length (section_lines (annotation goal) s) = 8%nat)
         days
    /\ Z.of_nat (length (split_lines out))
       = 8 * days_per_week + 3 + Z.of_nat (length (trailer duration)).
Proof.
  intros Hvalid Hgoal. pose proof Hvalid as (Hf & Hd & He).
  destruct (exercise_pool_valid fitness_level equipment bwo Hf He)
    as (pool & Hpool & Hsize & Hlines).
  set (days := number_days 1 (day_draws pool (Z.to_nat days_per_week) g)).
  assert (Hdays : Forall (fun s => drawn_from pool (Nat.min 5 (length pool))
                                     (day_exercises s)) days).
  { apply (number_days_Forall
             (fun sel => drawn_from pool (Nat.min 5 (length pool)) sel)).
    apply day_draws_Forall. intros g1 sel g2 Hrun.
    exact (sample_drawn_from _ _ _ _ _ Hrun). }
  assert (Hfive : Forall (fun s => length (day_exercises s) = 5%nat) days).
  { eapply Forall_impl; [exact Hdays|]. intros s Hs.
    rewrite (drawn_from_length _ _ _ Hs). lia. }
  assert (Hlen : length days = Z.to_nat days_per_week)
    by (unfold days; rewrite number_days_length; apply day_draws_length).
  pose proof (plan_lines_one_line goal pool _ days duration Hlines Hdays)
    as Hone.
  assert (Hsplit :
            split_lines
              (plan_text
                 (header_line fitness_level goal days_per_week equipment bwo)
                 (annotation goal) days (trailer duration))
            = header_line fitness_level goal days_per_week equipment bwo
              :: "" :: (concat (section_lines (annotation goal) <$> days)
                        ++ trailer duration) ++ [""]).
  { unfold plan_text.
    rewrite (split_lines_line _ _ (header_one_line _ goal days_per_week _ bwo
                                     Hf He Hgoal)).
    f_equal.
    etransitivity; [exact (split_lines_line "" _ eq_refl)|].
    f_equal. exact (split_lines_unlines _ Hone). }
  pose proof (create_workout_plan_draws _ goal _ _ _ duration g pool
                Hvalid (Hpool g)) as Hrun.
  fold days in Hrun. clearbody days.
  exists days. do 2 eexists. split; [exact Hrun|].
  split; [exact Hsplit|]. split; [lia|].
  split; [eapply Forall_impl; [exact Hfive|]; intros s Hs;
          rewrite section_lines_length, Hs; reflexivity|].
  rewrite Hsplit. cbn [length].
  rewrite !length_app, (sections_length _ _ Hfive). cbn [length]. lia.
Qed.

Lemma X9_lines_of_a_plan_witness :
  exists days out g',
    create_workout_plan "advanced" "muscle gain" 2 "full gym" true (Some 30)
      fours = (Return out, g')
    /\ split_lines out
       = header_line "advanced" "muscle gain" 2 "full gym" true
         :: "" :: (concat (section_lines (annotation "muscle gain") <$> days)
                   ++ trailer (Some 30)) ++ [""]
    /\ Z.of_nat (length days) = 2
    /\ Forall (fun s => length (section_lines (annotation "muscle gain") s)
                        = 8%nat) days
    /\ Z.of_nat (length (split_lines out))
       = 8 * 2 + 3 + Z.of_nat (length (trailer (Some 30))).
Proof.
  apply (X9_lines_of_a_plan
           "advanced" "muscle gain" 2 "full gym" true (Some 30) fours).
  - solve_valid.
  - reflexivity.
Defined.

Lemma lower_tiers (fitness_level : string) :
  fitness_level ∈ tiers -> lower fitness_level = fitness_level.
Proof. intros H. apply tiers_cases in H as [-> | [-> | ->]]; reflexivity. Qed.

Lemma lower_equipments (equipment : string) :
  equipment ∈ equipments -> lower equipment = equipment.
Proof.
  intros H. apply equipments_cases in H as [-> | [-> | ->]]; reflexivity.
Qed.

(** X10.  The check of the fitness level compares exactly, unlike the
    test on the goal: a fitness level that holds a capital letter gets the
    fitness-level message, whatever the other arguments are, and no draw
    is made. *)
Theorem X10_level_check_is_case_sensitive (fitness_level goal : string)
  (days_per_week : Z) (equipment : string) (bwo : bool)
  (duration : option Z) g :
  lower fitness_level <> fitness_level ->
  create_workout_plan fitness_level goal days_per_week equipment bwo
    duration g = (Return InvalidFitnessLevel, g).
Proof.
  intros Hcase. apply create_workout_plan_bad_level.
  intros Hf. exact (Hcase (lower_tiers _ Hf)).
Qed.

Lemma X10_level_check_is_case_sensitive_witness :
  create_workout_plan "Beginner" "Weight Loss" 3 "no equipment" false None
    fours = (Return InvalidFitnessLevel, fours).
Proof.
  apply (X10_level_check_is_case_sensitive
           "Beginner" "Weight Loss" 3 "no equipment" false None fours).
  vm_compute. discriminate.
Defined.

(** X11.  The check of the equipment compares exactly as well: with a
    recognised fitness level and 1 to 7 days, an equipment string that
    holds a capital letter gets the equipment message, and no draw is
    made. *)
Theorem X11_equipment_check_is_case_sensitive (fitness_level goal : string)
  (days_per_week : Z) (equipment : string) (bwo : bool)
  (duration : option Z) g :
  fitness_level ∈ tiers ->
  1 <= days_per_week <= 7 ->
  lower equipment <> equipment ->
  create_workout_plan fitness_level goal days_per_week equipment bwo
    duration g = (Return InvalidEquipment, g).
Proof.
  intros Hf Hd Hcase. apply create_workout_plan_bad_equipment; try assumption.
  intros He. exact (Hcase (lower_equipments _ He)).
Qed.

Lemma X11_equipment_check_is_case_sensitive_witness :
  create_workout_plan "beginner" "Weight Loss" 3 "Full Gym" false None fours
  = (Return InvalidEquipment, fours).
Proof.
  apply (X11_equipment_check_is_case_sensitive
           "beginner" "Weight Loss" 3 "Full Gym" false None fours).
  - repeat constructor.
  - lia.
  - vm_compute. discriminate.
Defined.

Lemma mentions_extend (word goal pre post : string) :
  mentions word goal -> mentions word (pre +:+ goal +:+ post).
Proof.
  intros (a & mid & b & -> & Hmid).
  exists (pre +:+ a), mid, (b +:+ post). split; [|exact Hmid].
  rewrite !string_app_assoc. reflexivity.
Qed.

(** X15.  The test on the goal looks for the two words anywhere in it:
    once a goal gets the "10-15 reps" annotation, so does every goal that
    holds it, whatever text is put before or after it. *)
Theorem X15_reps_survive_added_text (goal before after : string) :
  annotation goal = "3 sets of 10-15 reps" ->
  annotation (before +:+ goal +:+ after) = "3 sets of 10-15 reps".
Proof.
  intros H. apply annotation_rule. apply annotation_rule in H.
  destruct H as [H|H]; [left|right]; apply mentions_extend; exact H.
Qed.

Lemma X15_reps_survive_added_text_witness :
  annotation ("no " +:+ "weights" +:+ ", please") = "3 sets of 10-15 reps".
Proof.
  apply (X15_reps_survive_added_text "weights" "no " ", please").
  reflexivity.
Defined.


(** ** The delegation path *)

Lemma string_app_length (a b : string) :
  String.length (a +:+ b) = (String.length a + String.length b)%nat.
Proof.
  induction a as [|x a IH]; [reflexivity|].
  rewrite string_app_cons. cbn [String.length]. rewrite IH. reflexivity.
Qed.

Lemma string_app_inv_tail (a b c : string) : a +:+ c = b +:+ c -> a = b.
Proof.
  revert b. induction a as [|x a IH]; intros b H.
  - destruct b as [|y b]; [reflexivity|].
    apply (f_equal String.length) in H.
    rewrite string_app_nil_l, string_app_length in H.
    cbn [String.length] in H. lia.
  - destruct b as [|y b].
    + apply (f_equal String.length) in H.
      rewrite string_app_nil_l, string_app_length in H.
      cbn [String.length] in H. lia.
    + rewrite !string_app_cons in H. injection H as -> H.
      rewrite (IH b H). reflexivity.
Qed.

Lemma string_app_inv_head (a b c : string) : a +:+ b = a +:+ c -> b = c.
Proof.
  induction a as [|x a IH]; intros H; [exact H|].
  rewrite !string_app_cons in H. injection H as H. exact (IH H).
Qed.

Lemma str_inj (a b : Z) : str a = str b -> a = b.
Proof.
  intros H. apply (f_equal int_of_str) in H.
  rewrite !int_of_str_str in H. congruence.
Qed.

(** The filled template around its two defaulted fields. *)
Lemma filled_template_fields (fitness_level goal : string)
  (days_per_week : Z) (equipment : string) (bwo : bool) :
  exists pre mid post,
    forall duration additional_info,
      filled_template fitness_level goal days_per_week equipment bwo
        duration additional_info
      = pre +:+ duration_or_unspecified duration +:+ mid
        +:+ additional_info_or_none additional_info +:+ post.
Proof.
  exists (nl +:+ unlines [
            "    You are an expert personal trainer. Create a detailed workout plan based on the following information:";
            "";
            "    Fitness Level: " +:+ fitness_level;
            "    Goal: " +:+ goal;
            "    Days per Week: " +:+ str days_per_week;
            "    Equipment: " +:+ equipment;
            "    Body Weight Only: " +:+ str_bool bwo]
          +:+ "    Duration per Session: "),
         (" minutes" +:+ nl +:+ "    Additional Information: "),
         (nl +:+ unlines [
            "";
            "    Please create a workout plan that includes:";
            "    1. A brief introduction explaining the plan's focus and how it aligns with the user's goals.";
            "    2. A day-by-day breakdown of exercises, including sets, reps, and rest periods.";
            "    3. Proper form cues for key exercises.";
            "    4. Progression suggestions for the coming weeks.";
            "    5. Tips for warm-up and cool-down routines.";
            "    6. Any dietary advice that complements the workout plan.";
            "";
            "    Ensure the plan is appropriately challenging for the specified fitness level and uses available equipment effectively.";
            "    If body weight only is specified, focus exclusively on calisthenics and bodyweight exercises."]
          +:+ "    ").
  intros duration additional_info. unfold filled_template.
  cbn [unlines]. rewrite !string_app_assoc. reflexivity.
Qed.

Lemma str_not_unspecified (d : Z) : str d <> "unspecified".
Proof.
  intros H. apply (f_equal int_of_str) in H.
  rewrite int_of_str_str in H. vm_compute in H. discriminate H.
Qed.

Lemma duration_field_eq (d1 d2 : option Z) :
  duration_or_unspecified d1 = duration_or_unspecified d2
  <-> d1 = d2 \/ (truthy d1 = false /\ truthy d2 = false).
Proof.
  unfold duration_or_unspecified. split.
  - destruct (truthy d1) eqn:H1, (truthy d2) eqn:H2; intros H; auto.
    + left. destruct d1 as [a|], d2 as [b|]; try discriminate.
      simpl in H. rewrite (str_inj a b H). reflexivity.
    + destruct d1 as [a|]; [|discriminate].
      exfalso. exact (str_not_unspecified a H).
    + destruct d2 as [b|]; [|discriminate].
      exfalso. exact (str_not_unspecified b (eq_sym H)).
  - intros [-> | [-> ->]]; reflexivity.
Qed.

(** X12.  The prompt tells two durations apart exactly when they differ
    and are not both absent or 0: [duration or "unspecified"] turns None
    and 0 alike into "unspecified", and prints every other number in
    decimal.  Two calls that differ only by such durations send the same
    prompt to the service. *)
Theorem X12_prompt_duration_field (service failure : Type)
  (chat_format : string -> string)
  (invoke : string -> service -> (failure + string) * service)
  (fitness_level goal : string) (days_per_week : Z) (equipment : string)
  (bwo : bool) (d1 d2 : option Z) (additional_info : option string) :
  (filled_template fitness_level goal days_per_week equipment bwo d1
     additional_info
   = filled_template fitness_level goal days_per_week equipment bwo d2
       additional_info
   <-> d1 = d2 \/ ((d1 = None \/ d1 = Some 0) /\ (d2 = None \/ d2 = Some 0)))
  /\ ((d1 = None \/ d1 = Some 0) -> (d2 = None \/ d2 = Some 0) ->
      create_llm_workout_plan service failure chat_format invoke
        fitness_level goal days_per_week equipment bwo d1 additional_info
      = create_llm_workout_plan service failure chat_format invoke
          fitness_level goal days_per_week equipment bwo d2 additional_info).
Proof.
  assert (Hfalsy : forall d, truthy d = false <-> d = None \/ d = Some 0).
  { intros [d|]; simpl; [|tauto].
    rewrite negb_false_iff, Z.eqb_eq. split.
    - intros ->. auto.
    - intros [H|H]; [discriminate H|congruence]. }
  destruct (filled_template_fields fitness_level goal days_per_week
              equipment bwo) as (pre & mid & post & Hshape).
  assert (Hiff : filled_template fitness_level goal days_per_week equipment
                   bwo d1 additional_info
                 = filled_template fitness_level goal days_per_week equipment
                     bwo d2 additional_info
                 <-> d1 = d2 \/ (truthy d1 = false /\ truthy d2 = false)).
  { rewrite !Hshape, <- duration_field_eq. split.
    - intros H. apply string_app_inv_head in H.
      exact (string_app_inv_tail _ _ _ H).
    - intros ->. reflexivity. }
  split.
  - rewrite Hiff, !Hfalsy. reflexivity.
  - intros H1 H2. unfold create_llm_workout_plan.
    assert (Heq : filled_template fitness_level goal days_per_week equipment
                    bwo d1 additional_info
                  = filled_template fitness_level goal days_per_week equipment
                      bwo d2 additional_info)
      by (apply Hiff; right; rewrite !Hfalsy; auto).
    rewrite Heq. reflexivity.
Qed.

Lemma additional_info_field_eq (i1 i2 : option string) :
  additional_info_or_none i1 = additional_info_or_none i2
  <-> i1 = i2
      \/ ((i1 = None \/ i1 = Some "" \/ i1 = Some "None provided")
          /\ (i2 = None \/ i2 = Some "" \/ i2 = Some "None provided")).
Proof.
  assert (Hfield : forall i,
             (i = None \/ i = Some "" \/ i = Some "None provided")
             /\ additional_info_or_none i = "None provided"
             \/ (exists s, i = Some s /\ s <> "" /\ s <> "None provided"
                           /\ additional_info_or_none i = s)).
  { intros [s|]; [|left; auto].
    destruct (String.eqb_spec s "") as [->|Hne]; [left; auto|].
    destruct (String.eqb_spec s "None provided") as [->|Hne']; [left; auto|].
    right. exists s. repeat split; auto.
    unfold additional_info_or_none, truthy_str.
    destruct (String.eqb_spec s ""); [contradiction|reflexivity]. }
  split.
  - intros H.
    destruct (Hfield i1) as [[H1 E1]|(s1 & -> & Hs1 & Hs1' & E1)],
             (Hfield i2) as [[H2 E2]|(s2 & -> & Hs2 & Hs2' & E2)];
      rewrite E1, E2 in H;
      [right; auto|exfalso; congruence|exfalso; congruence|left; congruence].
  - intros [-> | [H1 H2]]; [reflexivity|].
    destruct H1 as [-> | [-> | ->]], H2 as [-> | [-> | ->]]; reflexivity.
Qed.

(** X13.  The prompt tells two values of additional_info apart exactly
    when they differ and are not both among: absent, the empty string, the
    text "None provided"; [additional_info or "None provided"] prints these
    three alike and every other text as it is.  Two calls that differ only
    by such values send the same prompt to the service. *)
Theorem X13_prompt_additional_info_field (service failure : Type)
  (chat_format : string -> string)
  (invoke : string -> service -> (failure + string) * service)
  (fitness_level goal : string) (days_per_week : Z) (equipment : string)
  (bwo : bool) (duration : option Z) (i1 i2 : option string) :
  (filled_template fitness_level goal days_per_week equipment bwo duration i1
   = filled_template fitness_level goal days_per_week equipment bwo duration
       i2
   <-> i1 = i2
       \/ ((i1 = None \/ i1 = Some "" \/ i1 = Some "None provided")
           /\ (i2 = None \/ i2 = Some "" \/ i2 = Some "None provided")))
  /\ ((i1 = None \/ i1 = Some "" \/ i1 = Some "None provided") ->
      (i2 = None \/ i2 = Some "" \/ i2 = Some "None provided") ->
      create_llm_workout_plan service failure chat_format invoke
        fitness_level goal days_per_week equipment bwo duration i1
      = create_llm_workout_plan service failure chat_format invoke
          fitness_level goal days_per_week equipment bwo duration i2).
Proof.
  destruct (filled_template_fields fitness_level goal days_per_week
              equipment bwo) as (pre & mid & post & Hshape).
  assert (Hiff : filled_template fitness_level goal days_per_week equipment
                   bwo duration i1
                 = filled_template fitness_level goal days_per_week equipment
                     bwo duration i2
                 <-> additional_info_or_none i1 = additional_info_or_none i2).
  { rewrite !Hshape. split.
    - intros H. do 3 apply string_app_inv_head in H.
      exact (string_app_inv_tail _ _ _ H).
    - intros ->. reflexivity. }
  split.
  - rewrite Hiff. apply additional_info_field_eq.
  - intros H1 H2. unfold create_llm_workout_plan.
    assert (Heq : filled_template fitness_level goal days_per_week equipment
                    bwo duration i1
                  = filled_template fitness_level goal days_per_week equipment
                      bwo duration i2)
      by (apply Hiff, additional_info_field_eq; auto).
    rewrite Heq. reflexivity.
Qed.

Example prompt_without_duration_and_info :
  filled_template "expert" "weight loss" 0 "home gym" false (Some 0) (Some "")
  = filled_template "expert" "weight loss" 0 "home gym" false None None.
Proof. reflexivity. Qed.

(** The first lines of a text that opens with a line. *)
Lemma split_lines_first (l : string) (ls : list string) (tail : string) :
  one_line l = true ->
  split_lines (unlines (l :: ls) +:+ tail)
  = l :: split_lines (unlines ls +:+ tail).
Proof.
  intros Hl. cbn [unlines]. rewrite !string_app_assoc.
  exact (split_lines_line l _ Hl).
Qed.

Lemma str_bool_inj (a b : bool) : str_bool a = str_bool b -> a = b.
Proof. destruct a, b; simpl; intros H; congruence. Qed.

(** The first eight lines of the filled template. *)
Lemma filled_template_head_lines (fitness_level goal : string)
  (days_per_week : Z) (equipment : string) (bwo : bool) (duration : option Z)
  (additional_info : option string) :
  one_line fitness_level = true -> one_line goal = true ->
  one_line equipment = true ->
  exists intro rest,
    split_lines (filled_template fitness_level goal days_per_week equipment
                   bwo duration additional_info)
    = "" :: intro :: ""
      :: ("    Fitness Level: " +:+ fitness_level)
      :: ("    Goal: " +:+ goal)
      :: ("    Days per Week: " +:+ str days_per_week)
      :: ("    Equipment: " +:+ equipment)
      :: ("    Body Weight Only: " +:+ str_bool bwo)
      :: rest.
Proof.
  intros Hf Hg He.
  assert (Hb : one_line (str_bool bwo) = true) by (destruct bwo; reflexivity).
  do 2 eexists. unfold filled_template.
  etransitivity; [exact (split_lines_line "" _ eq_refl)|]. f_equal.
  do 7 (rewrite split_lines_first
          by (rewrite ?one_line_app, ?Hf, ?Hg, ?He, ?str_one_line, ?Hb;
              reflexivity)).
  reflexivity.
Qed.

(** X14.  When fitness level, goal and equipment hold no line feed, the
    prompt determines them, the number of days and the body-weight flag:
    two requests with the same filled template agree on these five
    fields. *)
Theorem X14_prompt_determines_fields
  (fl1 fl2 goal1 goal2 : string) (days1 days2 : Z) (eq1 eq2 : string)
  (bwo1 bwo2 : bool) (d1 d2 : option Z) (i1 i2 : option string) :
  one_line fl1 = true -> one_line fl2 = true ->
  one_line goal1 = true -> one_line goal2 = true ->
  one_line eq1 = true -> one_line eq2 = true ->
  filled_template fl1 goal1 days1 eq1 bwo1 d1 i1
  = filled_template fl2 goal2 days2 eq2 bwo2 d2 i2 ->
  fl1 = fl2 /\ goal1 = goal2 /\ days1 = days2 /\ eq1 = eq2 /\ bwo1 = bwo2.
Proof.
  intros Hf1 Hf2 Hg1 Hg2 He1 He2 H.
  apply (f_equal split_lines) in H.
  destruct (filled_template_head_lines fl1 goal1 days1 eq1 bwo1 d1 i1
              Hf1 Hg1 He1) as (intro1 & rest1 & H1).
  destruct (filled_template_head_lines fl2 goal2 days2 eq2 bwo2 d2 i2
              Hf2 Hg2 He2) as (intro2 & rest2 & H2).
  rewrite H1, H2 in H.
  injection H as _ Hfl Hgoal Hdays Heq Hbwo _.
  apply string_app_inv_head in Hfl, Hgoal, Hdays, Heq, Hbwo.
  apply str_inj in Hdays. apply str_bool_inj in Hbwo. auto.
Qed.

Lemma X14_prompt_determines_fields_witness :
  "beginner" = "beginner" /\ "weight loss" = "weight loss" /\ 3 = 3
  /\ "full gym" = "full gym" /\ false = false.
Proof.
  apply (X14_prompt_determines_fields
           "beginner" "beginner" "weight loss" "weight loss" 3 3
           "full gym" "full gym" false false (Some 0) None (Some "") None);
    reflexivity.
Defined.

(** Without that condition the prompt does not determine the request: a
    line feed in a field can pass for the start of the next field. *)
Example prompt_fields_can_be_confused :
  filled_template ("x" +:+ nl +:+ "    Goal: y") "z" 3 "full gym" false
    None None
  = filled_template "x" ("y" +:+ nl +:+ "    Goal: z") 3 "full gym" false
      None None.
Proof. reflexivity. Qed.
